(** * Notification reporters of playwright-test-api

    A shallow embedding of [helpers/DiscordReporter.ts] and of the Telegram
    reporter (class [TelegramReporter]), with the properties their
    specification states about the collector, the formatters and the
    delivery step.

    Conventions of the embedding:
    - a JavaScript string is the list of its UTF-16 code units, so that
      [length], [substring] and the regular expressions on single characters
      mean what they mean in the source;
    - the counters of [TestStats] start at 0 and only move by [++]: they are
      natural numbers;
    - a JavaScript number that is computed with (the pass rate, the cumulative
      duration) is an IEEE 754 binary64 value, from the specification of the
      standard library ([SpecFloat]);
    - wall-clock readings ([Date.now()]) are integers of milliseconds supplied
      by the caller; console output and the HTTP request are events of a
      trace, and an exception is a completion of the computation. *)

From Stdlib Require Import Strings.String Strings.Ascii.
From Stdlib Require Import Numbers.DecimalString.
From Stdlib Require Import Floats.SpecFloat.
From Stdlib Require Import Bool Arith NArith ZArith Lia List.
Import ListNotations.

Set Implicit Arguments.

(* ================================================================= *)
(** * JavaScript values used by the reporters *)

Module JS.

(** A string, as its UTF-16 code units. *)
Definition jsstring := list N.

(** An ASCII literal of the source. *)
Definition lit (s : string) : jsstring :=
  map N_of_ascii (list_ascii_of_string s).

Definition str_eqb (a b : jsstring) : bool :=
  if list_eq_dec N.eq_dec a b then true else false.

(** [a || b] on strings: the empty string is falsy. *)
Definition or_str (a b : jsstring) : jsstring :=
  match a with
  | [] => b
  | _ => a
  end.

(** [a || b] where [a] may be [undefined]. *)
Definition or_undef (a : option jsstring) (b : jsstring) : jsstring :=
  match a with
  | Some s => or_str s b
  | None => b
  end.

(** [s.substring(0, n)] for a natural [n]. *)
Definition substring0 (n : nat) (s : jsstring) : jsstring := firstn n s.

(** White space and line terminators, the characters [trim] removes. *)
Definition isWhiteSpace (c : N) : bool :=
  (((0x9 <=? c) && (c <=? 0xD)) || (c =? 0x20) || (c =? 0xA0) || (c =? 0x1680)
   || ((0x2000 <=? c) && (c <=? 0x200A)) || (c =? 0x2028) || (c =? 0x2029)
   || (c =? 0x202F) || (c =? 0x205F) || (c =? 0x3000) || (c =? 0xFEFF))%N.

Fixpoint trimStart (s : jsstring) : jsstring :=
  match s with
  | c :: s' => if isWhiteSpace c then trimStart s' else s
  | [] => []
  end.

Definition trimEnd (s : jsstring) : jsstring := rev (trimStart (rev s)).

Definition trim (s : jsstring) : jsstring := trimEnd (trimStart s).

(** [s.replace(/c/g, r)] for a pattern that is the single character [c]. *)
Definition replaceAll (c : N) (r : jsstring) (s : jsstring) : jsstring :=
  flat_map (fun x => if (x =? c)%N then r else [x]) s.

(** [s.split(/[\\/]/)]: the segments between the separators [/] and [\]. *)
Definition isPathSep (c : N) : bool := ((c =? 0x2F) || (c =? 0x5C))%N.

Fixpoint splitPath (s : jsstring) : list jsstring :=
  match s with
  | [] => [[]]
  | c :: s' =>
      if isPathSep c then [] :: splitPath s'
      else match splitPath s' with
           | seg :: segs => (c :: seg) :: segs
           | [] => [[c]]
           end
  end.

(** [a.pop()] read as a value: the last element, [undefined] on [[]]. *)
Definition pop (a : list jsstring) : option jsstring :=
  match rev a with
  | x :: _ => Some x
  | [] => None
  end.

(** [[...].join(sep)]. *)
Fixpoint join (sep : jsstring) (a : list jsstring) : jsstring :=
  match a with
  | [] => []
  | [x] => x
  | x :: rest => x ++ sep ++ join sep rest
  end.

(** [[...].filter(Boolean)] on an array of strings and [null]s. *)
Definition filterBoolean (a : list (option jsstring)) : list jsstring :=
  flat_map (fun x => match x with
                     | Some (c :: s) => [c :: s]
                     | _ => []
                     end) a.

(** The decimal rendering of an integer ([`${n}`]). *)
Definition showZ (z : Z) : jsstring := lit (NilZero.string_of_int (Z.to_int z)).
Definition showNat (n : nat) : jsstring := showZ (Z.of_nat n).

(** ** Numbers: IEEE 754 binary64 *)

Definition number := spec_float.

Definition prec : Z := 53.
Definition emax : Z := 1024.

Definition ofZ (z : Z) : number := binary_normalize prec emax z 0 false.
Definition ofNat (n : nat) : number := ofZ (Z.of_nat n).
Definition div (x y : number) : number := SFdiv prec emax x y.
Definition mul (x y : number) : number := SFmul prec emax x y.
Definition add (x y : number) : number := SFadd prec emax x y.

(** The integer nearest to [m * 2^e * 10^f], the larger one on a tie. *)
Definition scaledNearest (f : nat) (m : positive) (e : Z) : Z :=
  let num := (Zpos m * 10 ^ Z.of_nat f)%Z in
  match e with
  | Zneg p => ((2 * num + 2 ^ Zpos p) / 2 ^ (Zpos p + 1))%Z
  | _ => (num * 2 ^ e)%Z
  end.

(** Steps 11.b and 11.c of [Number.prototype.toFixed]: the digits of [n]
    with a decimal point before the last [f] of them. *)
Definition fixedDigits (f : nat) (n : Z) : jsstring :=
  let m := showZ n in
  match f with
  | O => m
  | _ =>
      let k := length m in
      let m' := if (k <=? f)%nat then repeat 48%N (f + 1 - k) ++ m else m in
      let k' := if (k <=? f)%nat then (f + 1)%nat else k in
      firstn (k' - f) m' ++ lit "." ++ skipn (k' - f) m'
  end.

(** [Number::toString] of an integer [X >= 10^21] that is the value of the
    double [x]: the shortest decimal that reads back as [x], in exponent
    notation. *)
Definition readsBack (x : number) (V : Z) : bool :=
  match SFcompare (ofZ V) x with
  | Some Eq => true
  | _ => false
  end.

Fixpoint shortestDecimal (fuel k : nat) (x : number) (X : Z) : Z :=
  match fuel with
  | O => X
  | S fuel' =>
      let p := (10 ^ Z.of_nat (length (showZ X) - k))%Z in
      let lo := (X / p * p)%Z in
      let hi := (lo + p)%Z in
      match readsBack x lo, readsBack x hi with
      | true, false => lo
      | false, true => hi
      | true, true =>
          if (X - lo <? hi - X)%Z then lo
          else if (hi - X <? X - lo)%Z then hi
          else if Z.even (lo / p) then lo else hi
      | false, false => shortestDecimal fuel' (S k) x X
      end
  end.

Fixpoint dropZeros (s : jsstring) : jsstring :=
  match s with
  | c :: s' => if (c =? 48)%N then dropZeros s' else s
  | [] => []
  end.

Definition toStringLarge (x : number) (X : Z) : jsstring :=
  let V := showZ (shortestDecimal 17 1 x X) in
  let n := length V in
  let digits := rev (dropZeros (rev V)) in
  match digits with
  | [] => V
  | [d] => [d] ++ lit "e+" ++ showNat (n - 1)
  | d :: rest => [d] ++ lit "." ++ rest ++ lit "e+" ++ showNat (n - 1)
  end.

(** [x.toFixed(f)]. *)
Definition toFixed (f : nat) (x : number) : jsstring :=
  match x with
  | S754_nan => lit "NaN"
  | S754_infinity false => lit "Infinity"
  | S754_infinity true => lit "-Infinity"
  | S754_zero _ => fixedDigits f 0
  | S754_finite s m e =>
      (if s then lit "-" else []) ++
      (if (0 <=? e)%Z && (10 ^ 21 <=? Zpos m * 2 ^ e)%Z
       then toStringLarge (S754_finite false m e) (Zpos m * 2 ^ e)
       else fixedDigits f (scaledNearest f m e))
  end.

End JS.

Import JS.

(* ================================================================= *)
(** * What the test runner hands to a reporter *)

(** [TestResult["status"]] of the runner. *)
Inductive TestStatus :=
  | StPassed | StFailed | StTimedOut | StSkipped | StInterrupted.

(** [FullResult["status"]]; [RunOther] stands for any value that reaches the
    [default] branch of the switches. *)
Inductive RunStatus :=
  | RunPassed | RunFailed | RunTimedout | RunInterrupted | RunOther.

(** An entry of [result.errors]; [message] is optional. *)
Record TestError := { message : option jsstring }.

Record TestResult := {
  status : TestStatus;
  duration : number;
  retry : nat;
  errors : list TestError
}.

(** A project of [FullConfig]: [name], [testDir] and [use?.baseURL]. *)
Record Project := {
  p_name : jsstring;
  testDir : jsstring;
  use_baseURL : option jsstring
}.

(** [test.title] and [test.location.file]. *)
Record TestCase := {
  title : jsstring;
  location_file : jsstring
}.

(* ================================================================= *)
(** * The collector and the formatting helpers

    [onTestEnd], [extractErrorMessage], [formatDuration], [getStatusText]
    and [getPassRate] have the same text in the two classes; they are
    embedded once. *)

Module Reporter.

(** [sduration] is the field [duration] of the source, and [ftitle] below
    the field [title]: the results and the tests of the runner have fields
    of these names too. *)
Record TestStats := {
  total : nat;
  passed : nat;
  failed : nat;
  skipped : nat;
  flaky : nat;
  sduration : number
}.

Record FailedTest := {
  ftitle : jsstring;
  file : jsstring;
  error : jsstring
}.

(** The mutable fields of a reporter. *)
Record State := {
  stats : TestStats;
  failedTests : list FailedTest;
  startTime : Z;
  projectName : jsstring;
  baseUrl : jsstring
}.

(** The field initialisers of the class. *)
Definition initStats : TestStats :=
  {| total := 0; passed := 0; failed := 0; skipped := 0; flaky := 0;
     sduration := ofZ 0 |}.

Definition init : State :=
  {| stats := initStats; failedTests := []; startTime := 0;
     projectName := []; baseUrl := [] |}.

(** [now] is [Date.now()], [projects] is [config.projects] and [envBaseUrl]
    is [process.env.BASE_URL]. *)
Definition onBegin (now : Z) (projects : list Project)
  (envBaseUrl : option jsstring) (this : State) : State :=
  let runningProject :=
    find (fun p => match testDir p with [] => false | _ => true end)
      projects in
  {| stats := stats this;
     failedTests := failedTests this;
     startTime := now;
     projectName := or_undef (option_map p_name runningProject)
                      (lit "Playwright Tests");
     baseUrl := or_undef (match projects with
                          | p :: _ => use_baseURL p
                          | [] => None
                          end)
                  (or_undef envBaseUrl []) |}.

Definition extractErrorMessage (result : TestResult) : jsstring :=
  match errors result with
  | [] => lit "Unknown error"
  | error :: _ =>
      let message := or_undef (message error) [] in
      let maxLength := 150 in
      if maxLength <? length message
      then substring0 maxLength message ++ lit "..."
      else message
  end.

(** [test.location.file.split(/[\\/]/).pop() || test.location.file] *)
Definition fileName (path : jsstring) : jsstring :=
  or_undef (pop (splitPath path)) path.

(** Field updates ([this.stats.total++] and the like). *)
Definition updStats (f : TestStats -> TestStats) (this : State) : State :=
  {| stats := f (stats this); failedTests := failedTests this;
     startTime := startTime this; projectName := projectName this;
     baseUrl := baseUrl this |}.

Definition push (t : FailedTest) (this : State) : State :=
  {| stats := stats this; failedTests := failedTests this ++ [t];
     startTime := startTime this; projectName := projectName this;
     baseUrl := baseUrl this |}.

Definition incTotal (s : TestStats) : TestStats :=
  {| total := S (total s); passed := passed s; failed := failed s;
     skipped := skipped s; flaky := flaky s; sduration := sduration s |}.

Definition incPassed (s : TestStats) : TestStats :=
  {| total := total s; passed := S (passed s); failed := failed s;
     skipped := skipped s; flaky := flaky s; sduration := sduration s |}.

Definition incFailed (s : TestStats) : TestStats :=
  {| total := total s; passed := passed s; failed := S (failed s);
     skipped := skipped s; flaky := flaky s; sduration := sduration s |}.

Definition incSkipped (s : TestStats) : TestStats :=
  {| total := total s; passed := passed s; failed := failed s;
     skipped := S (skipped s); flaky := flaky s; sduration := sduration s |}.

Definition incFlaky (s : TestStats) : TestStats :=
  {| total := total s; passed := passed s; failed := failed s;
     skipped := skipped s; flaky := S (flaky s); sduration := sduration s |}.

Definition addDuration (d : number) (s : TestStats) : TestStats :=
  {| total := total s; passed := passed s; failed := failed s;
     skipped := skipped s; flaky := flaky s;
     sduration := add (sduration s) d |}.

Definition isPassed (st : TestStatus) : bool :=
  match st with
  | StPassed => true
  | _ => false
  end.

Definition onTestEnd (test : TestCase) (result : TestResult) (this : State)
  : State :=
  let this := updStats incTotal this in
  let this := updStats (addDuration (duration result)) this in
  let this :=
    match status result with
    | StPassed => updStats incPassed this
    | StFailed | StTimedOut =>
        push {| ftitle := title test;
                file := fileName (location_file test);
                error := extractErrorMessage result |}
             (updStats incFailed this)
    | StSkipped => updStats incSkipped this
    | StInterrupted => this
    end in
  (* Track flaky tests (passed after retry) *)
  if isPassed (status result) && (0 <? retry result)
  then updStats incFlaky this
  else this.

(** The runner calls [onTestEnd] once per finished test, in order. *)
Definition record (this : State) (ev : TestCase * TestResult) : State :=
  onTestEnd (fst ev) (snd ev) this.

Definition run (evs : list (TestCase * TestResult)) (this : State) : State :=
  fold_left record evs this.

(** [ms] is a difference of two [Date.now()] readings, an integer; on such
    values [Math.floor(ms / 1000)] is the quotient rounded down and [%] the
    remainder with the sign of the dividend. *)
Definition formatDuration (ms : Z) : jsstring :=
  let seconds := (ms / 1000)%Z in
  let minutes := (seconds / 60)%Z in
  let remainingSeconds := Z.rem seconds 60 in
  if (0 <? minutes)%Z
  then showZ minutes ++ lit "m " ++ showZ remainingSeconds ++ lit "s"
  else showZ seconds ++ lit "s".

Definition getStatusText (status : RunStatus) : jsstring :=
  match status with
  | RunPassed => lit "PASSED"
  | RunFailed => lit "FAILED"
  | RunTimedout => lit "TIMED OUT"
  | RunInterrupted => lit "INTERRUPTED"
  | RunOther => lit "UNKNOWN"
  end.

Definition getPassRate (this : State) : jsstring :=
  if total (stats this) =? 0 then lit "0%"
  else
    let rate := mul (div (ofNat (passed (stats this)))
                         (ofNat (total (stats this)))) (ofNat 100) in
    toFixed 1 rate ++ lit "%".

End Reporter.

Import Reporter.

(* ================================================================= *)
(** * Grouping the failures by file

    Both formatters build [testsByFile], a [Map<string, string[]>], with the
    same loop. A [Map] iterates in insertion order and [set] on a present key
    keeps the key where it is: an association list with one entry per key. *)

Module FileMap.

Definition t := list (jsstring * list jsstring).

Fixpoint get (k : jsstring) (m : t) : option (list jsstring) :=
  match m with
  | [] => None
  | (k', v) :: m' => if str_eqb k' k then Some v else get k m'
  end.

Fixpoint set (k : jsstring) (v : list jsstring) (m : t) : t :=
  match m with
  | [] => [(k, v)]
  | (k', v') :: m' =>
      if str_eqb k' k then (k', v) :: m' else (k', v') :: set k v m'
  end.

End FileMap.

(** One turn of [for (const test of this.failedTests)]. The array that
    [get] returns is the one stored in the map; [push] extends it in place
    and [set] stores it again. *)
Definition groupStep (testsByFile : FileMap.t) (test : FailedTest)
  : FileMap.t :=
  let tests := match FileMap.get (file test) testsByFile with
               | Some a => a
               | None => []
               end in
  FileMap.set (file test) (tests ++ [ftitle test]) testsByFile.

Definition groupByFile (failed : list FailedTest) : FileMap.t :=
  fold_left groupStep failed [].

Definition nl : jsstring := [10%N].

(* ================================================================= *)
(** * Effects of the end-of-run handler

    [onEnd] writes to the console, may call [fetch] once and may wait. A
    computation is the trace of these events with its completion: a value,
    or the exception that leaves it. What the network answers is given by
    the caller. *)

Module Eff.

Inductive Completion (A : Type) :=
  | Normal (a : A)
  | Throw (e : jsstring).
Arguments Throw {A} e.

(** The reply to [fetch]: the status code and what reading the body gives
    ([response.text()]; [response.json()] as the text [JSON.stringify]
    makes of the parsed value). [`${error}`] is the string an exception
    carries. *)
Record Response := {
  r_status : nat;
  r_text : Completion jsstring;
  r_json : Completion jsstring
}.

Definition ok (r : Response) : bool :=
  (200 <=? r_status r) && (r_status r <=? 299).

Section WithRequest.

(** The request given to [fetch]: the URL and the value serialised as body. *)
Variable Req : Type.

Inductive Event :=
  | ConsoleLog (s : jsstring)
  | ConsoleError (s : jsstring)
  | Fetch (req : Req)
  | SetTimeout (ms : nat).

Definition M (A : Type) : Type := list Event * Completion A.

Definition ret {A} (a : A) : M A := ([], Normal a).

Definition bind {A B} (m : M A) (k : A -> M B) : M B :=
  match m with
  | (tr, Normal a) => (tr ++ fst (k a), snd (k a))
  | (tr, Throw e) => (tr, Throw e)
  end.

(** [try { m } catch (error) { h error }] *)
Definition tryCatch {A} (m : M A) (h : jsstring -> M A) : M A :=
  match m with
  | (tr, Throw e) => (tr ++ fst (h e), snd (h e))
  | _ => m
  end.

Definition console_log (s : jsstring) : M unit := ([ConsoleLog s], Normal tt).
Definition console_error (s : jsstring) : M unit :=
  ([ConsoleError s], Normal tt).
Definition setTimeout (ms : nat) : M unit := ([SetTimeout ms], Normal tt).

(** [await fetch(...)], answered by [net]. *)
Definition fetch (req : Req) (net : Completion Response) : M Response :=
  ([Fetch req], net).

(** [await response.text()] and [await response.json()] *)
Definition await {A} (c : Completion A) : M A := ([], c).

Definition isFetch (e : Event) : bool :=
  match e with
  | Fetch _ => true
  | _ => false
  end.

Definition isConsoleError (e : Event) : bool :=
  match e with
  | ConsoleError _ => true
  | _ => false
  end.

End WithRequest.

Arguments ConsoleLog {Req} s.
Arguments ConsoleError {Req} s.
Arguments SetTimeout {Req} ms.
Arguments ret {Req A} a.
Arguments console_log {Req} s.
Arguments console_error {Req} s.
Arguments setTimeout {Req} ms.
Arguments await {Req A} c.

End Eff.

Notation "x <- m ;; k" := (Eff.bind m (fun x => k))
  (at level 61, m at next level, right associativity).
Notation "m ;;; k" := (Eff.bind m (fun _ => k))
  (at level 61, right associativity).

(* ================================================================= *)
(** * The Discord reporter *)

Module Discord.

Record DiscordConfig := {
  o_webhookUrl : option jsstring;
  o_enabled : option bool;
  o_includeFailedTests : option bool;
  o_maxFailedTestsToShow : option nat
}.

Record Field := {
  name : jsstring;
  value : jsstring;
  inline : bool
}.

Record DiscordEmbed := {
  e_title : jsstring;
  color : N;
  fields : list Field;
  footer_text : jsstring;
  timestamp : jsstring
}.

Record DiscordWebhookPayload := { embeds : list DiscordEmbed }.

Record DiscordReporter := {
  webhookUrl : jsstring;
  enabled : bool;
  includeFailedTests : bool;
  maxFailedTestsToShow : nat;
  state : State
}.

(** [a ?? b] *)
Definition nullish {A} (a : option A) (b : A) : A :=
  match a with
  | Some x => x
  | None => b
  end.

(** [env] is [process.env.DISCORD_WEBHOOK_URL]. *)
Definition constructor (options : DiscordConfig) (env : option jsstring)
  : DiscordReporter :=
  {| webhookUrl := or_undef (o_webhookUrl options) (or_undef env []);
     enabled := nullish (o_enabled options) false;
     includeFailedTests := nullish (o_includeFailedTests options) true;
     maxFailedTestsToShow := nullish (o_maxFailedTestsToShow options) 5;
     state := Reporter.init |}.

(** The methods of the collector act on the mutable fields. *)
Definition withState (st : State) (this : DiscordReporter)
  : DiscordReporter :=
  {| webhookUrl := webhookUrl this; enabled := enabled this;
     includeFailedTests := includeFailedTests this;
     maxFailedTestsToShow := maxFailedTestsToShow this;
     state := st |}.

Definition onBegin (now : Z) (projects : list Project)
  (envBaseUrl : option jsstring) (this : DiscordReporter)
  : DiscordReporter :=
  withState (Reporter.onBegin now projects envBaseUrl (state this)) this.

Definition onTestEnd (test : TestCase) (result : TestResult)
  (this : DiscordReporter) : DiscordReporter :=
  withState (Reporter.onTestEnd test result (state this)) this.

Definition run (evs : list (TestCase * TestResult)) (this : DiscordReporter)
  : DiscordReporter :=
  fold_left (fun r ev => onTestEnd (fst ev) (snd ev) r) evs this.

Definition isConfigured (this : DiscordReporter) : bool :=
  match webhookUrl this with
  | [] => false
  | _ => true
  end.

(** The string literals hold these characters in the source file. *)
Definition iconCheck : jsstring := [0x201A; 0xFA; 0xD6]%N.
Definition iconCross : jsstring := [0x201A; 0xF9; 0xE5]%N.
Definition iconClock : jsstring := [0x201A; 0xE8; 0xB1; 0xD4; 0x220F; 0xE8]%N.
Definition iconWarning : jsstring :=
  [0x201A; 0xF6; 0x2020; 0xD4; 0x220F; 0xE8]%N.
Definition iconQuestion : jsstring := [0x201A; 0xF9; 0xEC]%N.
Definition iconPackage : jsstring := [0xF8FF; 0xFC; 0xEC; 0xB6]%N.
Definition iconGlobe : jsstring := [0xF8FF; 0xFC; 0xE5; 0xEA]%N.
Definition iconChart : jsstring := [0xF8FF; 0xFC; 0xEC; 0xE4]%N.
Definition iconSkip : jsstring :=
  [0x201A; 0xE8; 0x2260; 0xD4; 0x220F; 0xE8]%N.
Definition iconRetry : jsstring := [0xF8FF; 0xFC; 0xEE; 0xD1]%N.
Definition iconPage : jsstring := [0xF8FF; 0xFC; 0xEC; 0xD1]%N.
Definition bullet : jsstring := [0x201A; 0xC4; 0xA2]%N.

Definition getStatusEmoji (status : RunStatus) : jsstring :=
  match status with
  | RunPassed => iconCheck
  | RunFailed => iconCross
  | RunTimedout => iconClock
  | RunInterrupted => iconWarning
  | RunOther => iconQuestion
  end.

Definition getEmbedColor (status : RunStatus) : N :=
  match status with
  | RunPassed => 0x2ecc71
  | RunFailed => 0xe74c3c
  | RunTimedout => 0xf39c12
  | RunInterrupted => 0x9b59b6
  | RunOther => 0x95a5a6
  end%N.

(** [for (const testTitle of tests)], on the pair of [failedTestsValue] and
    [testsShown]. *)
Fixpoint showTests (cap : nat) (tests : list jsstring) (acc : jsstring * nat)
  : jsstring * nat :=
  match tests with
  | [] => acc
  | testTitle :: rest =>
      if cap <=? snd acc then acc
      else showTests cap rest
             (fst acc ++ bullet ++ lit " " ++ testTitle ++ nl, S (snd acc))
  end.

(** [for (const [file, tests] of testsByFile)] *)
Fixpoint showFiles (cap : nat) (testsByFile : FileMap.t)
  (acc : jsstring * nat) : jsstring * nat :=
  match testsByFile with
  | [] => acc
  | (file, tests) :: rest =>
      if cap <=? snd acc then acc
      else
        let acc1 := (fst acc ++ iconPage ++ lit " **" ++ file ++ lit "**" ++ nl,
                     snd acc) in
        let acc2 := showTests cap tests acc1 in
        showFiles cap rest (fst acc2 ++ nl, snd acc2)
  end.

(** [failedTestsValue] after the note on the remaining tests, before the
    limit of the embed field is applied. *)
Definition groupedFailures (this : DiscordReporter) : jsstring :=
  let failed := failedTests (state this) in
  let testsByFile := groupByFile failed in
  let failedTestsValue :=
    fst (showFiles (maxFailedTestsToShow this) testsByFile ([], 0)) in
  if maxFailedTestsToShow this <? length failed
  then
    let remaining := length failed - maxFailedTestsToShow this in
    failedTestsValue ++ lit "_... and " ++ showNat remaining
      ++ lit " more failed tests_"
  else failedTestsValue.

(** Discord embed field value has 1024 character limit. *)
Definition limitField (failedTestsValue : jsstring) : jsstring :=
  if 1024 <? length failedTestsValue
  then substring0 1020 failedTestsValue ++ lit "..."
  else failedTestsValue.

(** The field pushed when there are failures to show. *)
Definition failedTestsField (this : DiscordReporter) : list Field :=
  if includeFailedTests this && (0 <? length (failedTests (state this)))
  then [{| name := iconCross ++ lit " Failed Tests";
           value := trim (limitField (groupedFailures this));
           inline := false |}]
  else [].

(** [now] is [Date.now()] and [isoNow] is [new Date().toISOString()]. *)
Definition buildPayload (result : RunStatus) (now : Z) (isoNow : jsstring)
  (this : DiscordReporter) : DiscordWebhookPayload :=
  let st := state this in
  let statusEmoji := getStatusEmoji result in
  let statusText := getStatusText result in
  let totalDuration := formatDuration (now - startTime st) in
  let embedColor := getEmbedColor result in
  let fields :=
    [ {| name := iconPackage ++ lit " Project";
         value := projectName st; inline := true |};
      {| name := iconGlobe ++ lit " Environment";
         value := or_str (baseUrl st) (lit "N/A"); inline := true |};
      {| name := iconClock ++ lit " Duration";
         value := totalDuration; inline := true |};
      {| name := iconChart ++ lit " Results";
         value :=
           join nl (filterBoolean
             [ Some (lit "**Total:** " ++ showNat (total (stats st)));
               Some (lit "**Passed:** " ++ showNat (passed (stats st))
                       ++ lit " " ++ iconCheck);
               Some (lit "**Failed:** " ++ showNat (failed (stats st))
                       ++ lit " " ++ iconCross);
               Some (lit "**Skipped:** " ++ showNat (skipped (stats st))
                       ++ lit " " ++ iconSkip);
               (if 0 <? flaky (stats st)
                then Some (lit "**Flaky:** " ++ showNat (flaky (stats st))
                             ++ lit " " ++ iconRetry)
                else None);
               Some (lit "**Pass Rate:** " ++ getPassRate st) ]);
         inline := false |} ]
    ++ failedTestsField this in
  {| embeds :=
       [ {| e_title := statusEmoji ++ lit " Test Execution: " ++ statusText;
            color := embedColor;
            fields := fields;
            footer_text := lit "Playwright Test Reporter";
            timestamp := isoNow |} ] |}.

(** [fetch(this.webhookUrl, { method: "POST", ..., body:
    JSON.stringify(payload) })]: the URL and the payload. *)
Definition Request : Type := jsstring * DiscordWebhookPayload.

Definition sendDiscordMessage (payload : DiscordWebhookPayload)
  (net : Eff.Completion Eff.Response) (this : DiscordReporter)
  : Eff.M Request unit :=
  Eff.tryCatch
    (response <- Eff.fetch (webhookUrl this, payload) net ;;
     (if negb (Eff.ok response)
      then
        errorText <- Eff.await (Eff.r_text response) ;;
        Eff.console_error
          (lit "[Discord Reporter] Failed to send message - Status: "
             ++ showNat (Eff.r_status response) ++ lit ", Error: "
             ++ errorText)
      else
        Eff.console_log
          (lit "[Discord Reporter] Notification sent successfully")) ;;;
     Eff.setTimeout 200)
    (fun error =>
       Eff.console_error
         (lit "[Discord Reporter] Error sending message - " ++ error)).

Definition onEnd (result : RunStatus) (now : Z) (isoNow : jsstring)
  (net : Eff.Completion Eff.Response) (this : DiscordReporter)
  : Eff.M Request unit :=
  if negb (enabled this) then Eff.ret tt
  else if negb (isConfigured this) then
    Eff.console_log
      (lit "[Discord Reporter] Skipped - missing DISCORD_WEBHOOK_URL in .env file")
  else
    let payload := buildPayload result now isoNow this in
    sendDiscordMessage payload net this.

End Discord.

(* ================================================================= *)
(** * The Telegram reporter *)

Module Telegram.

Record TelegramConfig := {
  o_botToken : option jsstring;
  o_chatId : option jsstring;
  o_enabled : option bool;
  o_includeFailedTests : option bool;
  o_maxFailedTestsToShow : option nat
}.

Record TelegramReporter := {
  botToken : jsstring;
  chatId : jsstring;
  enabled : bool;
  includeFailedTests : bool;
  maxFailedTestsToShow : nat;
  state : State
}.

(** [envToken] and [envChat] are [process.env.TELEGRAM_BOT_TOKEN] and
    [process.env.TELEGRAM_CHAT_ID]; the credentials of the options are not
    read. *)
Definition constructor (options : TelegramConfig)
  (envToken envChat : option jsstring) : TelegramReporter :=
  {| botToken := or_undef envToken [];
     chatId := or_undef envChat [];
     enabled := Discord.nullish (o_enabled options) false;
     includeFailedTests := Discord.nullish (o_includeFailedTests options) true;
     maxFailedTestsToShow :=
       Discord.nullish (o_maxFailedTestsToShow options) 5;
     state := Reporter.init |}.

(** The methods of the collector act on the mutable fields. *)
Definition withState (st : State) (this : TelegramReporter)
  : TelegramReporter :=
  {| botToken := botToken this; chatId := chatId this;
     enabled := enabled this;
     includeFailedTests := includeFailedTests this;
     maxFailedTestsToShow := maxFailedTestsToShow this;
     state := st |}.

Definition onBegin (now : Z) (projects : list Project)
  (envBaseUrl : option jsstring) (this : TelegramReporter)
  : TelegramReporter :=
  withState (Reporter.onBegin now projects envBaseUrl (state this)) this.

Definition onTestEnd (test : TestCase) (result : TestResult)
  (this : TelegramReporter) : TelegramReporter :=
  withState (Reporter.onTestEnd test result (state this)) this.

Definition run (evs : list (TestCase * TestResult)) (this : TelegramReporter)
  : TelegramReporter :=
  fold_left (fun r ev => onTestEnd (fst ev) (snd ev) r) evs this.

(** [Boolean(this.botToken && this.chatId)] *)
Definition isConfigured (this : TelegramReporter) : bool :=
  match botToken this, chatId this with
  | _ :: _, _ :: _ => true
  | _, _ => false
  end.

Definition escapeHtml (text : jsstring) : jsstring :=
  replaceAll 0x3E (lit "&gt;")
    (replaceAll 0x3C (lit "&lt;")
       (replaceAll 0x26 (lit "&amp;") text)).

(** The string literals hold these characters in the source file. *)
Definition iconPage : jsstring := [0xF0; 0x178; 0x201C; 0x201E]%N.
Definition bullet : jsstring := [0xE2; 0x20AC; 0xA2]%N.

(** [for (const testTitle of tests)], on the pair of [message] and
    [testsShown]. *)
Fixpoint showTests (cap : nat) (tests : list jsstring) (acc : jsstring * nat)
  : jsstring * nat :=
  match tests with
  | [] => acc
  | testTitle :: rest =>
      if cap <=? snd acc then acc
      else showTests cap rest
             (fst acc ++ bullet ++ lit " " ++ escapeHtml testTitle ++ nl,
              S (snd acc))
  end.

(** [for (const [file, tests] of testsByFile)] *)
Fixpoint showFiles (cap : nat) (testsByFile : FileMap.t)
  (acc : jsstring * nat) : jsstring * nat :=
  match testsByFile with
  | [] => acc
  | (file, tests) :: rest =>
      if cap <=? snd acc then acc
      else
        let acc1 := (fst acc ++ nl ++ iconPage ++ lit " <b>"
                       ++ escapeHtml file ++ lit "</b>" ++ nl,
                     snd acc) in
        showFiles cap rest (showTests cap tests acc1)
  end.

(** The block [if (this.includeFailedTests && this.failedTests.length > 0)],
    which extends [message]. *)
Definition addFailedTests (this : TelegramReporter) (message : jsstring)
  : jsstring :=
  let failed := failedTests (state this) in
  if includeFailedTests this && (0 <? length failed)
  then
    let message := message ++ nl ++ lit "<b>Failed Tests:</b>" ++ nl in
    let testsByFile := groupByFile failed in
    let message :=
      fst (showFiles (maxFailedTestsToShow this) testsByFile (message, 0)) in
    if maxFailedTestsToShow this <? length failed
    then
      let remaining := length failed - maxFailedTestsToShow this in
      message ++ nl ++ lit "<i>... and " ++ showNat remaining
        ++ lit " more failed tests</i>"
    else message
  else message.

(** The text before the failed tests. *)
Definition summary (result : RunStatus) (now : Z) (timestamp : jsstring)
  (this : TelegramReporter) : jsstring :=
  let st := state this in
  let statusText := getStatusText result in
  let totalDuration := formatDuration (now - startTime st) in
  let message := lit "<b>Test Execution: " ++ statusText ++ lit "</b>"
                   ++ nl ++ nl in
  let message := message ++ lit "<b>Project:</b> "
                   ++ escapeHtml (projectName st) ++ nl in
  let message := message ++ lit "<b>Environment:</b> "
                   ++ escapeHtml (baseUrl st) ++ nl in
  let message := message ++ lit "<b>Time:</b> " ++ escapeHtml timestamp
                   ++ lit " UTC" ++ nl in
  let message := message ++ lit "<b>Duration:</b> " ++ totalDuration
                   ++ nl ++ nl in
  let message := message ++ lit "<b>Results:</b>" ++ nl in
  let message := message ++ lit "Total: " ++ showNat (total (stats st))
                   ++ nl in
  let message := message ++ lit "Passed: " ++ showNat (passed (stats st))
                   ++ nl in
  let message := message ++ lit "Failed: " ++ showNat (failed (stats st))
                   ++ nl in
  let message := message ++ lit "Skipped: " ++ showNat (skipped (stats st))
                   ++ nl in
  let message :=
    if 0 <? flaky (stats st)
    then message ++ lit "Flaky: " ++ showNat (flaky (stats st)) ++ nl
    else message in
  message ++ lit "Pass Rate: " ++ getPassRate st ++ nl.

(** [now] is [Date.now()] and [timestamp] is what
    [new Date().toLocaleString("en-US", ...)] returns. *)
Definition buildMessage (result : RunStatus) (now : Z) (timestamp : jsstring)
  (this : TelegramReporter) : jsstring :=
  addFailedTests this (summary result now timestamp this).

(** The body of the request. *)
Record Body := {
  chat_id : jsstring;
  text : jsstring;
  parse_mode : jsstring;
  disable_web_page_preview : bool
}.

Definition Request : Type := jsstring * Body.

Definition sendTelegramMessage (message : jsstring)
  (net : Eff.Completion Eff.Response) (this : TelegramReporter)
  : Eff.M Request unit :=
  let url := lit "https://api.telegram.org/bot" ++ botToken this
               ++ lit "/sendMessage" in
  Eff.tryCatch
    (response <- Eff.fetch
                   (url, {| chat_id := chatId this; text := message;
                            parse_mode := lit "HTML";
                            disable_web_page_preview := true |}) net ;;
     if negb (Eff.ok response)
     then
       errorData <- Eff.await (Eff.r_json response) ;;
       Eff.console_error
         (lit "[Telegram Reporter] Failed to send message - " ++ errorData)
     else
       Eff.console_log
         (lit "[Telegram Reporter] Notification sent successfully"))
    (fun error =>
       Eff.console_error
         (lit "[Telegram Reporter] Error sending message - " ++ error)).

Definition onEnd (result : RunStatus) (now : Z) (timestamp : jsstring)
  (net : Eff.Completion Eff.Response) (this : TelegramReporter)
  : Eff.M Request unit :=
  if negb (enabled this) then Eff.ret tt
  else if negb (isConfigured this) then
    Eff.console_log
      (lit "[Telegram Reporter] Skipped - missing TELEGRAM_BOT_TOKEN or TELEGRAM_CHAT_ID in .env file")
  else
    let message := buildMessage result now timestamp this in
    sendTelegramMessage message net this.

End Telegram.

(* ================================================================= *)
(** * The notification service and the task notifications

    The classes [DiscordNotificationService] and [TaskNotificationHelper].
    Their console output and their call of [fetch] are events of a trace, as
    for the reporters; [console.warn] is one more kind of event. *)

Module Notifications.

Record Field := {
  name : jsstring;
  value : jsstring;
  inline : option bool
}.

Record DiscordEmbed := {
  e_title : jsstring;
  e_description : option jsstring;
  e_color : N;
  e_fields : list Field;
  e_footer : jsstring;
  e_timestamp : jsstring
}.

Record DiscordWebhookPayload := {
  content : option jsstring;
  embeds : list DiscordEmbed
}.

Record NotificationOptions := {
  title : jsstring;
  description : option jsstring;
  fields : option (list Field);
  color : option N;
  footer : option jsstring;
  timestamp : option jsstring;
  webhookUrl : option jsstring
}.

(** The values of [status]; [OtherStatus] stands for any value that reaches
    the [default] branch. *)
Inductive TaskStatus :=
  | Completed | Failed | InProgress | Cancelled | OtherStatus.

(** [duration] is any number: the command line passes what [parseInt]
    returns. *)
Record TaskNotificationOptions := {
  taskName : jsstring;
  status : TaskStatus;
  duration : option number;
  details : option jsstring;
  filesCreated : option (list jsstring);
  errors : option (list jsstring);
  t_webhookUrl : option jsstring
}.

Inductive Event :=
  | ConsoleWarn (s : jsstring)
  | ConsoleLog (s : jsstring)
  | ConsoleError (s : jsstring)
  | Fetch (url : jsstring) (payload : DiscordWebhookPayload).

Definition M (A : Type) : Type := list Event * Eff.Completion A.

Definition ret {A} (a : A) : M A := ([], Eff.Normal a).

Definition bind {A B} (m : M A) (k : A -> M B) : M B :=
  match m with
  | (tr, Eff.Normal a) => (tr ++ fst (k a), snd (k a))
  | (tr, Eff.Throw e) => (tr, Eff.Throw e)
  end.

(** [try { m } catch (error) { h error }] *)
Definition tryCatch {A} (m : M A) (h : jsstring -> M A) : M A :=
  match m with
  | (tr, Eff.Throw e) => (tr ++ fst (h e), snd (h e))
  | _ => m
  end.

Definition emit (e : Event) : M unit := ([e], Eff.Normal tt).

Definition fetch (url : jsstring) (payload : DiscordWebhookPayload)
  (net : Eff.Completion Eff.Response) : M Eff.Response :=
  ([Fetch url payload], net).

Definition await {A} (c : Eff.Completion A) : M A := ([], c).

(** ** [DiscordNotificationService] *)

Record DiscordNotificationService := { defaultWebhookUrl : jsstring }.

(** [env] is [process.env.DISCORD_WEBHOOK_URL]. *)
Definition newService (webhookUrl : option jsstring) (env : option jsstring)
  : DiscordNotificationService :=
  {| defaultWebhookUrl := or_undef webhookUrl (or_undef env []) |}.

Definition isConfigured (webhookUrl : option jsstring)
  (this : DiscordNotificationService) : bool :=
  let url := or_undef webhookUrl (defaultWebhookUrl this) in
  match url with
  | [] => false
  | _ => true
  end.

(** [isoNow] is [new Date().toISOString()]. *)
Definition buildPayload (options : NotificationOptions) (isoNow : jsstring)
  : DiscordWebhookPayload :=
  let embed :=
    {| e_title := title options;
       e_description := description options;
       e_color := match color options with
                  | Some c => c
                  | None => 0x3498db%N
                  end;
       e_fields := match fields options with
                   | Some f => f
                   | None => []
                   end;
       e_footer := match footer options with
                   | Some (c :: s) => c :: s
                   | _ => lit "Task Notification"
                   end;
       e_timestamp := or_undef (timestamp options) isoNow |} in
  {| content := None; embeds := [embed] |}.

Definition sendDiscordMessage (webhookUrl : jsstring)
  (payload : DiscordWebhookPayload) (net : Eff.Completion Eff.Response)
  : M bool :=
  tryCatch
    (bind (fetch webhookUrl payload net) (fun response =>
       if negb (Eff.ok response)
       then
         bind (await (Eff.r_text response)) (fun errorText =>
           bind (emit (ConsoleError
                   (lit "[Discord Notification] Failed to send - Status: "
                      ++ showNat (Eff.r_status response) ++ lit ", Error: "
                      ++ errorText)))
                (fun _ => ret false))
       else
         bind (emit (ConsoleLog
                 (lit "[Discord Notification] Sent successfully")))
              (fun _ => ret true)))
    (fun error =>
       bind (emit (ConsoleError
               (lit "[Discord Notification] Error - " ++ error)))
            (fun _ => ret false)).

Definition sendNotification (options : NotificationOptions)
  (isoNow : jsstring) (net : Eff.Completion Eff.Response)
  (this : DiscordNotificationService) : M bool :=
  let webhookUrl := or_undef (webhookUrl options) (defaultWebhookUrl this) in
  if negb (isConfigured (Some webhookUrl) this)
  then
    bind (emit (ConsoleWarn
            (lit "[Discord Notification] Skipped - missing webhook URL")))
         (fun _ => ret false)
  else
    let payload := buildPayload options isoNow in
    sendDiscordMessage webhookUrl payload net.

Definition sendMessage (content : jsstring) (webhookUrl : option jsstring)
  (net : Eff.Completion Eff.Response) (this : DiscordNotificationService)
  : M bool :=
  let url := or_undef webhookUrl (defaultWebhookUrl this) in
  if negb (isConfigured (Some url) this)
  then
    bind (emit (ConsoleWarn
            (lit "[Discord Notification] Skipped - missing webhook URL")))
         (fun _ => ret false)
  else
    let payload := {| content := Some content; embeds := [] |} in
    sendDiscordMessage url payload net.

(** ** [TaskNotificationHelper] *)

Record TaskNotificationHelper := {
  notificationService : DiscordNotificationService;
  defaultTaskWebhookUrl : jsstring
}.

(** [envTask] and [env] are [process.env.DISCORD_TASK_WEBHOOK_URL] and
    [process.env.DISCORD_WEBHOOK_URL]. *)
Definition newHelper (service : option DiscordNotificationService)
  (envTask env : option jsstring) : TaskNotificationHelper :=
  let url := or_undef envTask (or_undef env []) in
  {| defaultTaskWebhookUrl := url;
     notificationService :=
       match service with
       | Some s => s
       | None => newService (Some url) env
       end |}.

Record StatusConfig := {
  emoji : jsstring;
  sc_color : N;
  sc_description : jsstring
}.

Definition getStatusConfig (status : TaskStatus) : StatusConfig :=
  match status with
  | Completed =>
      {| emoji := [0x2705%N]; sc_color := 0x2ecc71%N;
         sc_description := lit "Task completed successfully" |}
  | Failed =>
      {| emoji := [0x274C%N]; sc_color := 0xe74c3c%N;
         sc_description := lit "Task failed" |}
  | InProgress =>
      {| emoji := [0xD83D; 0xDD04]%N; sc_color := 0x3498db%N;
         sc_description := lit "Task in progress" |}
  | Cancelled =>
      {| emoji := [0x26A0; 0xFE0F]%N; sc_color := 0xf39c12%N;
         sc_description := lit "Task cancelled" |}
  | OtherStatus =>
      {| emoji := [0x2753%N]; sc_color := 0x95a5a6%N;
         sc_description := lit "Task status unknown" |}
  end.

(** A number that is [NaN], an infinity or an integer: what [Math.floor]
    returns, and what [%] returns on such numbers. [Whole 0] stands for both
    zeros, which compare alike with 0 and are both written "0". *)
Inductive Floored :=
  | NotANumber
  | Infinite (negative : bool)
  | Whole (z : Z).

(** [Math.floor(x)] *)
Definition floor (x : number) : Floored :=
  match x with
  | S754_nan => NotANumber
  | S754_infinity s => Infinite s
  | S754_zero _ => Whole 0
  | S754_finite s m e =>
      let mantissa := if s then Zneg m else Zpos m in
      match e with
      | Zneg p => Whole (mantissa / 2 ^ Zpos p)
      | _ => Whole (mantissa * 2 ^ e)
      end
  end.

(** The double of a floored number; the integer is one of a double, so
    that nothing is rounded. *)
Definition toNumber (f : Floored) : number :=
  match f with
  | NotANumber => S754_nan
  | Infinite s => S754_infinity s
  | Whole z => ofZ z
  end.

(** [f % 60] *)
Definition rem60 (f : Floored) : Floored :=
  match f with
  | Whole z => Whole (Z.rem z 60)
  | _ => NotANumber
  end.

(** [f > 0] *)
Definition positive (f : Floored) : bool :=
  match f with
  | Whole z => (0 <? z)%Z
  | Infinite s => negb s
  | NotANumber => false
  end.

(** [`${f}`]: the shortest decimal that reads back as the double, with its
    zeros up to 21 digits and in exponent notation beyond. *)
Definition showWhole (X : Z) : jsstring :=
  let x := ofZ X in
  let X := match floor x with
           | Whole z => z
           | _ => X
           end in
  let V := shortestDecimal 17 1 x X in
  if (V <? 10 ^ 21)%Z then showZ V else toStringLarge x X.

Definition show (f : Floored) : jsstring :=
  match f with
  | NotANumber => lit "NaN"
  | Infinite false => lit "Infinity"
  | Infinite true => lit "-Infinity"
  | Whole Z0 => lit "0"
  | Whole (Zpos p) => showWhole (Zpos p)
  | Whole (Zneg p) => lit "-" ++ showWhole (Zpos p)
  end.

(** [Boolean(x)] for a number: neither a zero nor [NaN]. *)
Definition truthy (x : number) : bool :=
  match x with
  | S754_zero _ | S754_nan => false
  | _ => true
  end.

Definition formatDuration (ms : number) : jsstring :=
  let seconds := floor (div ms (ofZ 1000)) in
  let minutes := floor (div (toNumber seconds) (ofZ 60)) in
  let hours := floor (div (toNumber minutes) (ofZ 60)) in
  let remainingMinutes := rem60 minutes in
  let remainingSeconds := rem60 seconds in
  if positive hours
  then show hours ++ lit "h " ++ show remainingMinutes ++ lit "m "
         ++ show remainingSeconds ++ lit "s"
  else if positive minutes
  then show minutes ++ lit "m " ++ show remainingSeconds ++ lit "s"
  else show seconds ++ lit "s".

(** [a.map((x, idx) => f(x, idx))], from the index [idx]. *)
Fixpoint mapi {A B} (f : A -> nat -> B) (idx : nat) (a : list A) : list B :=
  match a with
  | [] => []
  | x :: rest => f x idx :: mapi f (S idx) rest
  end.

(** The field of the created files. *)
Definition filesField (filesCreated : list jsstring) : Field :=
  let filesList :=
    join nl (map (fun file => [0x2022%N] ++ lit " `" ++ file ++ lit "`")
               (firstn 10 filesCreated)) in
  let moreFiles :=
    if 10 <? length filesCreated
    then nl ++ lit "_... and " ++ showNat (length filesCreated - 10)
           ++ lit " more files_"
    else [] in
  {| name := [0xD83D; 0xDCC1]%N ++ lit " Files Created ("
               ++ showNat (length filesCreated) ++ lit ")";
     value := filesList ++ moreFiles;
     inline := Some false |}.

(** The field of the errors. *)
Definition errorsField (errors : list jsstring) : Field :=
  let errorsList :=
    join nl (mapi (fun error idx => showNat (idx + 1) ++ lit ". " ++ error)
               0 (firstn 5 errors)) in
  let moreErrors :=
    if 5 <? length errors
    then nl ++ lit "_... and " ++ showNat (length errors - 5)
           ++ lit " more errors_"
    else [] in
  {| name := [0x274C%N] ++ lit " Errors (" ++ showNat (length errors)
               ++ lit ")";
     value := errorsList ++ moreErrors;
     inline := Some false |}.

(** The fields that [notifyTaskCompletion] pushes, in order. *)
Definition taskFields (options : TaskNotificationOptions) : list Field :=
  let durationText :=
    match duration options with
    | Some d => if truthy d then Some (formatDuration d) else None
    | None => None
    end in
  (match durationText with
   | Some (c :: s) =>
       [{| name := [0x23F1; 0xFE0F]%N ++ lit " Duration";
           value := c :: s; inline := Some true |}]
   | _ => []
   end)
  ++ (match details options with
      | Some (c :: s) =>
          [{| name := [0xD83D; 0xDCDD]%N ++ lit " Details";
              value := c :: s; inline := Some false |}]
      | _ => []
      end)
  ++ (match filesCreated options with
      | Some (f :: fs) => [filesField (f :: fs)]
      | _ => []
      end)
  ++ (match errors options with
      | Some (e :: es) => [errorsField (e :: es)]
      | _ => []
      end).

Definition notificationOptions (options : TaskNotificationOptions)
  : NotificationOptions :=
  let statusConfig := getStatusConfig (status options) in
  {| title := emoji statusConfig ++ lit " Task: " ++ taskName options;
     description := Some (sc_description statusConfig);
     color := Some (sc_color statusConfig);
     fields := Some (taskFields options);
     footer := Some (lit "AI Assistant Task Notification");
     timestamp := None;
     webhookUrl := t_webhookUrl options |}.

Definition notifyTaskCompletion (options : TaskNotificationOptions)
  (isoNow : jsstring) (net : Eff.Completion Eff.Response)
  (this : TaskNotificationHelper) : M bool :=
  sendNotification (notificationOptions options) isoNow net
    (notificationService this).

Definition notifySuccess (taskName : jsstring) (message : option jsstring)
  (webhookUrl : option jsstring) (isoNow : jsstring)
  (net : Eff.Completion Eff.Response) (this : TaskNotificationHelper)
  : M bool :=
  notifyTaskCompletion
    {| taskName := taskName; status := Completed; duration := None;
       details := message; filesCreated := None; errors := None;
       t_webhookUrl := webhookUrl |} isoNow net this.

Definition notifyFailure (taskName : jsstring) (error : jsstring)
  (webhookUrl : option jsstring) (isoNow : jsstring)
  (net : Eff.Completion Eff.Response) (this : TaskNotificationHelper)
  : M bool :=
  notifyTaskCompletion
    {| taskName := taskName; status := Failed; duration := None;
       details := None; filesCreated := None; errors := Some [error];
       t_webhookUrl := webhookUrl |} isoNow net this.

End Notifications.

(* ================================================================= *)
(** * Vocabulary of the statements

    The predicates and the views of the formatted text that the theorems
    use, and the sample runs on which they are evaluated. *)

Section Vocabulary.

(** The statuses the collector counts. *)
Definition counted (st : TestStatus) : Prop :=
  st = StPassed \/ st = StFailed \/ st = StTimedOut \/ st = StSkipped.

(** The invariant of the collector. *)
Definition consistent (this : State) : Prop :=
  total (stats this)
    = passed (stats this) + failed (stats this) + skipped (stats this)
  /\ length (failedTests this) = failed (stats this)
  /\ flaky (stats this) <= passed (stats this).

(** A run of four results, one of each counted status. *)
Definition sampleRun : list (TestCase * TestResult) :=
  let test := {| title := lit "lists the tags";
                 location_file := lit "tests/tags.spec.ts" |} in
  let result st r :=
    {| status := st; duration := ofZ 250; retry := r; errors := [] |} in
  [ (test, result StPassed 1); (test, result StFailed 0);
    (test, result StSkipped 0); (test, result StTimedOut 1) ].

(** The statuses that add a failure record. *)
Definition isFailure (st : TestStatus) : Prop :=
  st = StFailed \/ st = StTimedOut.

(** A test and a failed result of it with the given error objects. *)
Definition sampleTest : TestCase :=
  {| title := lit "creates an article";
     location_file := lit "/repo/tests/articles.spec.ts" |}.

Definition failedWith (errs : list TestError) : TestResult :=
  {| status := StFailed; duration := ofZ 1200; retry := 0; errors := errs |}.

(** What [escapeHtml] makes of one character. *)
Definition escapeChar (c : N) : jsstring :=
  if (c =? 0x26)%N then lit "&amp;"
  else if (c =? 0x3C)%N then lit "&lt;"
  else if (c =? 0x3E)%N then lit "&gt;"
  else [c].

(** The files of a list in the order in which each is first seen. *)
Fixpoint firstSeen (files : list jsstring) : list jsstring :=
  match files with
  | [] => []
  | f :: rest => f :: filter (fun g => negb (str_eqb f g)) (firstSeen rest)
  end.

(** The titles recorded for a file, in the order of recording. *)
Definition titlesOf (f : jsstring) (failed : list FailedTest)
  : list jsstring :=
  map ftitle (filter (fun t => str_eqb (file t) f) failed).

(** Number of titles held by the groups. *)
Definition titleCount (groups : FileMap.t) : nat :=
  length (concat (map snd groups)).

(** The test lines of the groups in reading order, each with its file. *)
Definition linesOf (groups : FileMap.t) : list (jsstring * jsstring) :=
  flat_map (fun g => map (pair (fst g)) (snd g)) groups.

(** What the loops over [testsByFile] show when [room] more test lines are
    allowed: the groups reached before the allowance is used up, each with
    the titles that fit. *)
Fixpoint shownGroups (room : nat) (groups : FileMap.t) : FileMap.t :=
  match groups with
  | [] => []
  | (f, tests) :: rest =>
      match room with
      | O => []
      | _ => (f, firstn room tests) :: shownGroups (room - length tests) rest
      end
  end.

(** The remainder named by the note, when there is a note. *)
Definition remainder (cap : nat) (failed : list FailedTest) : option nat :=
  if cap <? length failed then Some (length failed - cap) else None.

(** The Discord field: a heading line per file, a bullet line per test, an
    empty line after each file, and the note. *)
Definition discordLine (testTitle : jsstring) : jsstring :=
  Discord.bullet ++ lit " " ++ testTitle ++ nl.

Definition discordGroup (g : jsstring * list jsstring) : jsstring :=
  Discord.iconPage ++ lit " **" ++ fst g ++ lit "**" ++ nl
    ++ concat (map discordLine (snd g)) ++ nl.

Definition discordNote (r : option nat) : jsstring :=
  match r with
  | Some remaining =>
      lit "_... and " ++ showNat remaining ++ lit " more failed tests_"
  | None => []
  end.

Definition discordText (shown : FileMap.t) (r : option nat) : jsstring :=
  concat (map discordGroup shown) ++ discordNote r.

(** The Telegram block: an empty line and a heading line per file, a bullet
    line per test, and the note. *)
Definition telegramLine (testTitle : jsstring) : jsstring :=
  Telegram.bullet ++ lit " " ++ Telegram.escapeHtml testTitle ++ nl.

Definition telegramGroup (g : jsstring * list jsstring) : jsstring :=
  nl ++ Telegram.iconPage ++ lit " <b>" ++ Telegram.escapeHtml (fst g)
    ++ lit "</b>" ++ nl ++ concat (map telegramLine (snd g)).

Definition telegramNote (r : option nat) : jsstring :=
  match r with
  | Some remaining =>
      nl ++ lit "<i>... and " ++ showNat remaining
        ++ lit " more failed tests</i>"
  | None => []
  end.

Definition telegramText (shown : FileMap.t) (r : option nat) : jsstring :=
  nl ++ lit "<b>Failed Tests:</b>" ++ nl
    ++ concat (map telegramGroup shown) ++ telegramNote r.

(** Seven failures in two files, and the reporters that recorded them with
    the default limit of five. *)
Definition failure (t f : string) : TestCase * TestResult :=
  ({| title := lit t; location_file := lit f |},
   {| status := StFailed; duration := ofZ 40; retry := 0;
      errors := [{| message := Some (lit "expected 200") |}] |}).

Definition sevenFailures : list (TestCase * TestResult) :=
  [ failure "t1" "tests/a.spec.ts"; failure "t2" "tests/b.spec.ts";
    failure "t3" "tests/a.spec.ts"; failure "t4" "tests/a.spec.ts";
    failure "t5" "tests/b.spec.ts"; failure "t6" "tests/a.spec.ts";
    failure "t7" "tests/b.spec.ts" ].

Definition discordSeven : Discord.DiscordReporter :=
  Discord.run sevenFailures
    (Discord.constructor
       {| Discord.o_webhookUrl := None; Discord.o_enabled := Some true;
          Discord.o_includeFailedTests := None;
          Discord.o_maxFailedTestsToShow := None |}
       (Some (lit "https://discord.example/api/webhooks/1/x"))).

Definition telegramSeven : Telegram.TelegramReporter :=
  Telegram.run sevenFailures
    (Telegram.constructor
       {| Telegram.o_botToken := None; Telegram.o_chatId := None;
          Telegram.o_enabled := Some true;
          Telegram.o_includeFailedTests := None;
          Telegram.o_maxFailedTestsToShow := None |}
       (Some (lit "123:abc")) (Some (lit "42"))).

(** [s] ends with [suffix]. *)
Definition endsWith (suffix s : jsstring) : Prop :=
  exists pre, s = pre ++ suffix.

(** A failure whose title has 1100 characters, recorded by a Telegram
    reporter with the default options. *)
Definition telegramLong : Telegram.TelegramReporter :=
  Telegram.run
    [ ({| title := repeat 0x61%N 1100;
          location_file := lit "tests/articles.spec.ts" |},
       {| status := StTimedOut; duration := ofZ 30000; retry := 1;
          errors := [] |}) ]
    (Telegram.constructor
       {| Telegram.o_botToken := None; Telegram.o_chatId := None;
          Telegram.o_enabled := Some true;
          Telegram.o_includeFailedTests := None;
          Telegram.o_maxFailedTestsToShow := None |}
       (Some (lit "123:abc")) (Some (lit "42"))).

(** A failure whose title has 1100 characters, recorded by a Discord
    reporter with the default options. *)
Definition discordLong : Discord.DiscordReporter :=
  Discord.run
    [ ({| title := repeat 0x61%N 1100;
          location_file := lit "tests/articles.spec.ts" |},
       {| status := StTimedOut; duration := ofZ 30000; retry := 1;
          errors := [] |}) ]
    (Discord.constructor
       {| Discord.o_webhookUrl := None; Discord.o_enabled := Some true;
          Discord.o_includeFailedTests := None;
          Discord.o_maxFailedTestsToShow := None |}
       (Some (lit "https://discord.example/api/webhooks/1/x"))).

(** The pass rate of [p] passed tests out of [t]. *)
Definition rateOf (p t : nat) : jsstring :=
  getPassRate
    {| stats := {| total := t; passed := p; failed := 0; skipped := 0;
                   flaky := 0; sduration := ofZ 0 |};
       failedTests := []; startTime := 0; projectName := []; baseUrl := [] |}.

(** A number of tenths written with one decimal place. *)
Definition tenths (n : Z) : jsstring :=
  showZ (n / 10) ++ lit "." ++ showZ (n mod 10).

(** [n] tenths of a percent is a nearest tenth to [100 * p / t]. *)
Definition nearestTenth (p t : nat) (n : Z) : bool :=
  (2 * Z.abs (n * Z.of_nat t - 1000 * Z.of_nat p) <=? Z.of_nat t)%Z.

Definition rateChecked (p t : nat) : bool :=
  let n := (1000 * Z.of_nat p / Z.of_nat t)%Z in
  let rate := rateOf p t in
  (str_eqb rate (tenths n ++ lit "%") && nearestTenth p t n)
  || (str_eqb rate (tenths (n + 1) ++ lit "%") && nearestTenth p t (n + 1)).

Definition ratesChecked (bound : nat) : bool :=
  forallb (fun t => forallb (fun p => rateChecked p t) (seq 0 (S t)))
    (seq 1 bound).

(** The state with another cumulative duration. *)
Definition setDuration (d : number) (this : State) : State :=
  updStats (fun s => {| total := total s; passed := passed s;
                        failed := failed s; skipped := skipped s;
                        flaky := flaky s; sduration := d |}) this.

(** Two states that differ at most in the cumulative duration. *)
Definition agree (a b : State) : Prop :=
  setDuration (ofZ 0) a = setDuration (ofZ 0) b.

(** Two events that differ at most in the duration of the result. *)
Definition sameButDuration (ev ev' : TestCase * TestResult) : Prop :=
  fst ev = fst ev'
  /\ status (snd ev) = status (snd ev')
  /\ retry (snd ev) = retry (snd ev')
  /\ errors (snd ev) = errors (snd ev').

(** The lines of the Telegram message before the duration. *)
Definition telegramHead (result : RunStatus) (timestamp : jsstring)
  (this : Telegram.TelegramReporter) : jsstring :=
  lit "<b>Test Execution: " ++ getStatusText result ++ lit "</b>" ++ nl ++ nl
    ++ lit "<b>Project:</b> "
    ++ Telegram.escapeHtml (projectName (Telegram.state this)) ++ nl
    ++ lit "<b>Environment:</b> "
    ++ Telegram.escapeHtml (baseUrl (Telegram.state this)) ++ nl
    ++ lit "<b>Time:</b> " ++ Telegram.escapeHtml timestamp ++ lit " UTC"
    ++ nl.

(** The seven failures with other durations. *)
Definition sevenSlower : list (TestCase * TestResult) :=
  map (fun ev => (fst ev,
                  {| status := status (snd ev); duration := ofZ 90000;
                     retry := retry (snd ev); errors := errors (snd ev) |}))
    sevenFailures.

Definition discordSkipped : jsstring :=
  lit "[Discord Reporter] Skipped - missing DISCORD_WEBHOOK_URL in .env file".

Definition telegramSkipped : jsstring :=
  lit "[Telegram Reporter] Skipped - missing TELEGRAM_BOT_TOKEN or TELEGRAM_CHAT_ID in .env file".

Definition telegramUrl (this : Telegram.TelegramReporter) : jsstring :=
  lit "https://api.telegram.org/bot" ++ Telegram.botToken this
    ++ lit "/sendMessage".

(** A reporter made with no option and no variable of the environment. *)
Definition discordDefault : Discord.DiscordReporter :=
  Discord.constructor
    {| Discord.o_webhookUrl := None; Discord.o_enabled := None;
       Discord.o_includeFailedTests := None;
       Discord.o_maxFailedTestsToShow := None |} None.

(** An enabled reporter without credentials. *)
Definition discordUnconfigured : Discord.DiscordReporter :=
  Discord.constructor
    {| Discord.o_webhookUrl := None; Discord.o_enabled := Some true;
       Discord.o_includeFailedTests := None;
       Discord.o_maxFailedTestsToShow := None |} None.

(** Number of recorded results that satisfy [p]. *)
Definition countIf (p : TestResult -> bool)
  (evs : list (TestCase * TestResult)) : nat :=
  length (filter (fun ev => p (snd ev)) evs).

Definition hasStatus (st : TestStatus) (r : TestResult) : bool :=
  match status r, st with
  | StPassed, StPassed | StFailed, StFailed | StTimedOut, StTimedOut
  | StSkipped, StSkipped | StInterrupted, StInterrupted => true
  | _, _ => false
  end.

(** The results that are recorded as failures. *)
Definition failing (r : TestResult) : bool :=
  hasStatus StFailed r || hasStatus StTimedOut r.

(** The results counted as flaky. *)
Definition passedOnRetry (r : TestResult) : bool :=
  hasStatus StPassed r && (0 <? retry r).

(** The record a failing result leaves. *)
Definition recordOf (ev : TestCase * TestResult) : FailedTest :=
  {| ftitle := title (fst ev);
     file := fileName (location_file (fst ev));
     error := extractErrorMessage (snd ev) |}.

(** A path segment: no [/] and no [\]. *)
Definition segment (s : jsstring) : Prop :=
  Forall (fun c => isPathSep c = false) s.

(** A string given and not empty: what [||] takes as present. *)
Definition given (o : option jsstring) : Prop :=
  exists s, o = Some s /\ s <> [].

(** The names of the fields of the embed that are always there. *)
Definition baseFieldNames : list jsstring :=
  [ Discord.iconPackage ++ lit " Project";
    Discord.iconGlobe ++ lit " Environment";
    Discord.iconClock ++ lit " Duration";
    Discord.iconChart ++ lit " Results" ].

(** [Boolean(s)] for a string. *)
Definition visible (s : jsstring) : bool :=
  match s with
  | [] => false
  | _ => true
  end.

(** What the handlers log when the notification is sent. *)
Definition discordSent : jsstring :=
  lit "[Discord Reporter] Notification sent successfully".

Definition telegramSent : jsstring :=
  lit "[Telegram Reporter] Notification sent successfully".

(** The network answered with a 2xx response. *)
Definition delivered (net : Eff.Completion Eff.Response) : bool :=
  match net with
  | Eff.Normal r => Eff.ok r
  | Eff.Throw _ => false
  end.

(** What the service logs when it has no URL. *)
Definition notificationSkipped : Notifications.Event :=
  Notifications.ConsoleWarn
    (lit "[Discord Notification] Skipped - missing webhook URL").




(** A duration that gives no field: missing, a zero or [NaN]. *)
Definition noDuration (o : option number) : Prop :=
  match o with
  | Some d => Notifications.truthy d = false
  | None => True
  end.

(** A text or a list that gives no field: missing or empty. *)
Definition nothing {A} (o : option (list A)) : Prop :=
  match o with
  | Some l => l = []
  | None => True
  end.

End Vocabulary.

(* ================================================================= *)
(** * The collector *)

Section Collector.

Lemma consistent_init : consistent Reporter.init.
Proof. repeat split; simpl; lia. Qed.

Lemma onTestEnd_consistent (test : TestCase) (result : TestResult)
  (this : State) :
  counted (status result) ->
  consistent this -> consistent (Reporter.onTestEnd test result this).
Proof.
  unfold counted, consistent, Reporter.onTestEnd.
  intros Hst (Ht & Hl & Hf).
  destruct (status result) eqn:E;
    try (destruct Hst as [H | [H | [H | H]]]; discriminate H);
    simpl; try destruct (0 <? retry result); simpl;
    rewrite ?length_app; simpl; repeat split; lia.
Qed.

Lemma run_consistent (evs : list (TestCase * TestResult)) :
  forall this,
    Forall (fun ev => counted (status (snd ev))) evs ->
    consistent this -> consistent (run evs this).
Proof.
  induction evs as [| ev evs IH]; intros this Hall Hc; simpl.
  - exact Hc.
  - inversion Hall as [| ? ? Hev Hrest]; subst.
    apply IH; [exact Hrest |].
    apply onTestEnd_consistent; assumption.
Qed.

Lemma Forall_firstn {A} (P : A -> Prop) (n : nat) (l : list A) :
  Forall P l -> Forall P (firstn n l).
Proof.
  revert n; induction l as [| a l IH]; intros [| n] H; simpl; auto.
  inversion H; subst; constructor; auto.
Qed.

Lemma discord_run_state (evs : list (TestCase * TestResult)) :
  forall this,
    Discord.state (Discord.run evs this) = run evs (Discord.state this).
Proof.
  induction evs as [| ev evs IH]; intros this; simpl; [reflexivity |].
  unfold Discord.run in IH. rewrite IH. reflexivity.
Qed.

Lemma telegram_run_state (evs : list (TestCase * TestResult)) :
  forall this,
    Telegram.state (Telegram.run evs this) = run evs (Telegram.state this).
Proof.
  induction evs as [| ev evs IH]; intros this; simpl; [reflexivity |].
  unfold Telegram.run in IH. rewrite IH. reflexivity.
Qed.

(** C1. After every prefix of a sequence of results whose statuses are
    passed, failed, timedOut or skipped, recorded by a new reporter of either
    class, [total = passed + failed + skipped], the list of failed tests is
    as long as [failed] says, and [flaky <= passed]. *)
Theorem collector_invariant (evs : list (TestCase * TestResult)) :
  Forall (fun ev => counted (status (snd ev))) evs ->
  forall n,
    (forall options env,
        consistent (Discord.state
          (Discord.run (firstn n evs) (Discord.constructor options env))))
    /\ (forall options envToken envChat,
        consistent (Telegram.state
          (Telegram.run (firstn n evs)
             (Telegram.constructor options envToken envChat)))).
Proof.
  intros Hall n.
  assert (H : consistent (run (firstn n evs) Reporter.init)).
  { apply run_consistent.
    - apply Forall_firstn; exact Hall.
    - exact consistent_init. }
  split; intros.
  - rewrite discord_run_state. exact H.
  - rewrite telegram_run_state. exact H.
Qed.

Lemma collector_invariant_witness :
  Forall (fun ev => counted (status (snd ev))) sampleRun
  /\ consistent (Discord.state
       (Discord.run (firstn 3 sampleRun)
          (Discord.constructor
             {| Discord.o_webhookUrl := None; Discord.o_enabled := Some true;
                Discord.o_includeFailedTests := None;
                Discord.o_maxFailedTestsToShow := None |} None))).
Proof.
  assert (H : Forall (fun ev => counted (status (snd ev))) sampleRun).
  { unfold sampleRun, counted; repeat (apply Forall_cons); simpl; auto. }
  split; [exact H |].
  apply (proj1 (collector_invariant H 3)).
Defined.

End Collector.

(* ================================================================= *)
(** * Error messages of the failure records *)

Section ErrorMessages.

(** A failed or timed-out result appends one record, made of the title, the
    file name and the extracted message. *)
Lemma onTestEnd_failure (test : TestCase) (result : TestResult)
  (this : State) :
  isFailure (status result) ->
  failedTests (Reporter.onTestEnd test result this)
  = failedTests this
      ++ [{| ftitle := title test;
             file := fileName (location_file test);
             error := extractErrorMessage result |}].
Proof.
  unfold Reporter.onTestEnd.
  intros [H | H]; rewrite H; reflexivity.
Qed.

(** C3, as stated, fails: a first error object without a message is
    recorded with the empty string, not with "Unknown error". *)
Lemma no_message_recorded_as_empty :
  let result := failedWith [{| message := None |}] in
  isFailure (status result)
  /\ map error (failedTests (Reporter.onTestEnd sampleTest result Reporter.init))
     = [ [] ]
  /\ map error (failedTests (Reporter.onTestEnd sampleTest result Reporter.init))
     <> [ lit "Unknown error" ].
Proof.
  simpl. split; [left; reflexivity |]. split; [reflexivity | discriminate].
Qed.

(** C3, amended. A failed or timed-out result with no error object is
    recorded with the error "Unknown error"; one whose first error object
    has no message (or an empty one) is recorded with the empty string. *)
Theorem missing_error_message (test : TestCase) (result : TestResult)
  (this : State) :
  isFailure (status result) ->
  (errors result = [] ->
   failedTests (Reporter.onTestEnd test result this)
   = failedTests this
       ++ [{| ftitle := title test;
              file := fileName (location_file test);
              error := lit "Unknown error" |}])
  /\ (forall e rest,
         errors result = e :: rest ->
         message e = None \/ message e = Some [] ->
         failedTests (Reporter.onTestEnd test result this)
         = failedTests this
             ++ [{| ftitle := title test;
                    file := fileName (location_file test);
                    error := [] |}]).
Proof.
  intros Hf. rewrite (onTestEnd_failure test result this Hf).
  unfold extractErrorMessage. split.
  - intros ->. reflexivity.
  - intros e rest -> [-> | ->]; reflexivity.
Qed.

Lemma missing_error_message_witness :
  isFailure (status (failedWith []))
  /\ failedTests (Reporter.onTestEnd sampleTest (failedWith []) Reporter.init)
     = [{| ftitle := lit "creates an article";
           file := lit "articles.spec.ts";
           error := lit "Unknown error" |}].
Proof.
  split; [left; reflexivity |].
  exact (proj1 (missing_error_message sampleTest (failedWith []) Reporter.init
                  (or_introl eq_refl)) eq_refl).
Defined.

(** C5. The message of the first error object of a failed or timed-out
    result is recorded as its first 150 characters followed by "..." when it
    is longer than 150 characters, and unchanged otherwise. *)
Theorem error_message_truncated (test : TestCase) (result : TestResult)
  (this : State) (e : TestError) (rest : list TestError) (m : jsstring) :
  isFailure (status result) ->
  errors result = e :: rest ->
  message e = Some m ->
  exists recordedError,
    failedTests (Reporter.onTestEnd test result this)
    = failedTests this
        ++ [{| ftitle := title test;
               file := fileName (location_file test);
               error := recordedError |}]
    /\ (150 < length m -> recordedError = firstn 150 m ++ lit "...")
    /\ (length m <= 150 -> recordedError = m).
Proof.
  intros Hf He Hm.
  exists (extractErrorMessage result). split.
  - apply onTestEnd_failure; exact Hf.
  - unfold extractErrorMessage. rewrite He, Hm.
    assert (Hor : or_undef (Some m) [] = m) by (destruct m; reflexivity).
    rewrite Hor. unfold substring0.
    destruct (150 <? length m) eqn:E.
    + apply Nat.ltb_lt in E. split; [reflexivity | lia].
    + apply Nat.ltb_ge in E. split; [lia | reflexivity].
Qed.

Lemma error_message_truncated_witness :
  let m := repeat 0x61%N 151 in
  let result := failedWith [{| message := Some m |}] in
  isFailure (status result)
  /\ exists recordedError,
       failedTests (Reporter.onTestEnd sampleTest result Reporter.init)
       = [{| ftitle := lit "creates an article";
             file := lit "articles.spec.ts";
             error := recordedError |}]
       /\ recordedError = repeat 0x61%N 150 ++ lit "...".
Proof.
  split; [left; reflexivity |].
  destruct (error_message_truncated sampleTest
              (failedWith [{| message := Some (repeat 0x61%N 151) |}])
              Reporter.init (or_introl eq_refl) eq_refl eq_refl)
    as (r & Hrec & Hlong & _).
  exists r. split; [exact Hrec |].
  rewrite Hlong; [reflexivity |].
  rewrite repeat_length. lia.
Defined.

End ErrorMessages.

(* ================================================================= *)
(** * Escaping of the Telegram text *)

Section Escaping.

Lemma replaceAll_app (c : N) (r a b : jsstring) :
  replaceAll c r (a ++ b) = replaceAll c r a ++ replaceAll c r b.
Proof. unfold replaceAll. apply flat_map_app. Qed.

Lemma escapeHtml_cons (c : N) (s : jsstring) :
  Telegram.escapeHtml (c :: s) = escapeChar c ++ Telegram.escapeHtml s.
Proof.
  unfold Telegram.escapeHtml, escapeChar.
  change (replaceAll 38 (lit "&amp;") (c :: s))
    with ((if (c =? 38)%N then lit "&amp;" else [c])
            ++ replaceAll 38 (lit "&amp;") s).
  rewrite !replaceAll_app.
  destruct (c =? 38)%N eqn:E1; [reflexivity |].
  change (replaceAll 60 (lit "&lt;") [c])
    with ((if (c =? 60)%N then lit "&lt;" else [c]) ++ []).
  rewrite app_nil_r.
  destruct (c =? 60)%N eqn:E2; [reflexivity |].
  change (replaceAll 62 (lit "&gt;") [c])
    with ((if (c =? 62)%N then lit "&gt;" else [c]) ++ []).
  rewrite app_nil_r.
  destruct (c =? 62)%N eqn:E3; reflexivity.
Qed.

(** C8. [escapeHtml] replaces each [&] by [&amp;], each [<] by [&lt;] and
    each [>] by [&gt;], and leaves every other character as it is; the text
    [<b>x & y</b>] becomes [&lt;b&gt;x &amp; y&lt;/b&gt;]. *)
Theorem escapeHtml_three_characters :
  (forall text, Telegram.escapeHtml text = flat_map escapeChar text)
  /\ escapeChar 0x26 = lit "&amp;"
  /\ escapeChar 0x3C = lit "&lt;"
  /\ escapeChar 0x3E = lit "&gt;"
  /\ (forall c, c <> 0x26%N -> c <> 0x3C%N -> c <> 0x3E%N -> escapeChar c = [c])
  /\ Telegram.escapeHtml (lit "<b>x & y</b>")
     = lit "&lt;b&gt;x &amp; y&lt;/b&gt;".
Proof.
  split; [| repeat split].
  - induction text as [| c s IH]; [reflexivity |].
    rewrite escapeHtml_cons, IH. reflexivity.
  - intros c H1 H2 H3. unfold escapeChar.
    apply N.eqb_neq in H1, H2, H3. rewrite H1, H2, H3. reflexivity.
Qed.

Lemma escapeHtml_three_characters_witness :
  escapeChar 0x41 = [0x41%N].
Proof.
  apply (proj1 (proj2 (proj2 (proj2 (proj2 escapeHtml_three_characters))))
           0x41%N); discriminate.
Defined.

End Escaping.

(* ================================================================= *)
(** * The failed tests shown by the formatters *)

Section Shown.

Lemma str_eqb_eq (a b : jsstring) : str_eqb a b = true <-> a = b.
Proof.
  unfold str_eqb. destruct (list_eq_dec N.eq_dec a b); split; intros H;
    congruence.
Qed.

Lemma str_eqb_refl (a : jsstring) : str_eqb a a = true.
Proof. apply str_eqb_eq. reflexivity. Qed.

Lemma str_eqb_neq (a b : jsstring) : str_eqb a b = false <-> a <> b.
Proof.
  unfold str_eqb. destruct (list_eq_dec N.eq_dec a b); split; intros H;
    congruence.
Qed.

Lemma str_eqb_sym (a b : jsstring) : str_eqb a b = str_eqb b a.
Proof.
  destruct (str_eqb b a) eqn:E.
  - apply str_eqb_eq. symmetry. apply str_eqb_eq. exact E.
  - apply str_eqb_neq. intros H. apply str_eqb_neq in E. congruence.
Qed.

(** ** The map built by the grouping loop *)

Lemma groupStep_nil (x : FailedTest) :
  groupStep [] x = [(file x, [ftitle x])].
Proof. reflexivity. Qed.

Lemma groupStep_cons (k : jsstring) (v : list jsstring) (m : FileMap.t)
  (x : FailedTest) :
  groupStep ((k, v) :: m) x
  = if str_eqb k (file x) then (k, v ++ [ftitle x]) :: m
    else (k, v) :: groupStep m x.
Proof.
  unfold groupStep. simpl. destruct (str_eqb k (file x)); reflexivity.
Qed.

Lemma titleCount_cons (f : jsstring) (tests : list jsstring)
  (groups : FileMap.t) :
  titleCount ((f, tests) :: groups) = length tests + titleCount groups.
Proof. unfold titleCount. simpl. apply length_app. Qed.

Lemma titleCount_groupStep (m : FileMap.t) (x : FailedTest) :
  titleCount (groupStep m x) = S (titleCount m).
Proof.
  induction m as [| [k v] m IH].
  - reflexivity.
  - rewrite groupStep_cons. destruct (str_eqb k (file x)).
    + rewrite !titleCount_cons, length_app. simpl. lia.
    + rewrite !titleCount_cons, IH. lia.
Qed.

Lemma titleCount_fold (failed : list FailedTest) :
  forall m,
    titleCount (fold_left groupStep failed m) = titleCount m + length failed.
Proof.
  induction failed as [| x failed IH]; intros m; simpl.
  - lia.
  - rewrite IH, titleCount_groupStep. lia.
Qed.

(** Every failure is in one group. *)
Lemma titleCount_groupByFile (failed : list FailedTest) :
  titleCount (groupByFile failed) = length failed.
Proof. unfold groupByFile. rewrite titleCount_fold. reflexivity. Qed.

Lemma firstSeen_In (l : list jsstring) (x : jsstring) :
  In x (firstSeen l) <-> In x l.
Proof.
  induction l as [| f l IH]; simpl; [tauto |].
  rewrite filter_In, IH. split.
  - intros [H | [H _]]; auto.
  - intros [H | H]; [auto |].
    destruct (str_eqb f x) eqn:E.
    + left. apply str_eqb_eq. exact E.
    + right. split; [exact H | reflexivity].
Qed.

Lemma firstSeen_NoDup (l : list jsstring) : NoDup (firstSeen l).
Proof.
  induction l as [| f l IH]; simpl; constructor.
  - rewrite filter_In. intros [_ H]. rewrite str_eqb_refl in H. discriminate.
  - apply NoDup_filter. exact IH.
Qed.

Lemma firstSeen_snoc (l : list jsstring) (x : jsstring) :
  firstSeen (l ++ [x])
  = if existsb (str_eqb x) l then firstSeen l else firstSeen l ++ [x].
Proof.
  induction l as [| f l IH]; simpl; [reflexivity |].
  rewrite IH. rewrite (str_eqb_sym x f).
  destruct (existsb (str_eqb x) l) eqn:Ex.
  - rewrite orb_true_r. reflexivity.
  - rewrite orb_false_r, filter_app. simpl.
    destruct (str_eqb f x); simpl; [rewrite app_nil_r |]; reflexivity.
Qed.

Lemma titlesOf_snoc (f : jsstring) (failed : list FailedTest)
  (x : FailedTest) :
  titlesOf f (failed ++ [x])
  = titlesOf f failed ++ (if str_eqb (file x) f then [ftitle x] else []).
Proof.
  unfold titlesOf. rewrite filter_app, map_app. simpl.
  destruct (str_eqb (file x) f); reflexivity.
Qed.

Lemma titlesOf_absent (f : jsstring) (failed : list FailedTest) :
  existsb (str_eqb f) (map file failed) = false -> titlesOf f failed = [].
Proof.
  unfold titlesOf. induction failed as [| x failed IH]; simpl; [reflexivity |].
  intros H. apply orb_false_iff in H. destruct H as [H1 H2].
  rewrite (str_eqb_sym (file x) f), H1. apply IH. exact H2.
Qed.

Lemma existsb_firstSeen (l : list jsstring) (x : jsstring) :
  existsb (str_eqb x) (firstSeen l) = existsb (str_eqb x) l.
Proof.
  destruct (existsb (str_eqb x) l) eqn:E.
  - apply existsb_exists in E. destruct E as (y & Hy & Hxy).
    apply existsb_exists. exists y. split; [| exact Hxy].
    apply firstSeen_In. exact Hy.
  - destruct (existsb (str_eqb x) (firstSeen l)) eqn:E'; [| reflexivity].
    apply existsb_exists in E'. destruct E' as (y & Hy & Hxy).
    apply (proj1 (firstSeen_In l y)) in Hy.
    assert (Ht : existsb (str_eqb x) l = true)
      by (apply existsb_exists; exists y; split; assumption).
    congruence.
Qed.

(** One step of the loop on a map with distinct keys: the group of the file
    gets the title at its end, or a new group is added last. *)
Lemma groupStep_map (T : jsstring -> list jsstring) (x : FailedTest)
  (keys : list jsstring) :
  NoDup keys ->
  groupStep (map (fun f => (f, T f)) keys) x
  = map (fun f => (f, T f ++ (if str_eqb (file x) f then [ftitle x] else [])))
      keys
    ++ (if existsb (str_eqb (file x)) keys then [] else [(file x, [ftitle x])]).
Proof.
  induction keys as [| k keys IH]; intros Hnd.
  - reflexivity.
  - inversion Hnd as [| ? ? Hk Hnd']; subst.
    cbn [map existsb]. rewrite groupStep_cons, (str_eqb_sym k (file x)).
    destruct (str_eqb (file x) k) eqn:E.
    + apply str_eqb_eq in E. subst k. cbn [orb app]. rewrite app_nil_r.
      f_equal. apply map_ext_in. intros f Hf.
      destruct (str_eqb (file x) f) eqn:E'.
      * apply str_eqb_eq in E'. subst f. contradiction.
      * rewrite app_nil_r. reflexivity.
    + rewrite (IH Hnd'). cbn [orb app]. rewrite app_nil_r. reflexivity.
Qed.

(** The groups are the files in first-seen order, each with its titles in
    the order of recording. *)
Lemma groupByFile_firstSeen (failed : list FailedTest) :
  groupByFile failed
  = map (fun f => (f, titlesOf f failed)) (firstSeen (map file failed)).
Proof.
  induction failed as [| x failed IH] using rev_ind.
  - reflexivity.
  - unfold groupByFile in *. rewrite fold_left_app. cbn [fold_left].
    rewrite IH, (groupStep_map (fun f => titlesOf f failed) x
                   (firstSeen_NoDup (map file failed))).
    rewrite map_app. cbn [map]. rewrite firstSeen_snoc, existsb_firstSeen.
    assert (Hmap :
      map (fun f => (f, titlesOf f failed
                          ++ (if str_eqb (file x) f then [ftitle x] else [])))
        (firstSeen (map file failed))
      = map (fun f => (f, titlesOf f (failed ++ [x])))
          (firstSeen (map file failed))).
    { apply map_ext. intros f. rewrite titlesOf_snoc. reflexivity. }
    rewrite Hmap.
    destruct (existsb (str_eqb (file x)) (map file failed)) eqn:E.
    + rewrite app_nil_r. reflexivity.
    + rewrite map_app. cbn [map]. rewrite titlesOf_snoc, str_eqb_refl.
      rewrite (titlesOf_absent _ _ E). reflexivity.
Qed.

(** ** What the loops over the groups show *)


Lemma linesOf_shownGroups (groups : FileMap.t) :
  forall room,
    linesOf (shownGroups room groups) = firstn room (linesOf groups).
Proof.
  induction groups as [| [f tests] groups IH]; intros room.
  - destruct room; reflexivity.
  - destruct room as [| k]; [reflexivity |].
    cbn [shownGroups]. unfold linesOf in *. cbn [flat_map fst snd].
    rewrite IH, firstn_app, length_map, firstn_map. reflexivity.
Qed.

(** ** The text of the shown groups *)

Lemma room_step (cap n : nat) :
  (cap <=? n) = false -> cap - n = S (cap - S n).
Proof. intros H. apply Nat.leb_gt in H. lia. Qed.

Lemma room_none (cap n : nat) : (cap <=? n) = true -> cap - n = 0.
Proof. intros H. apply Nat.leb_le in H. lia. Qed.

Lemma discord_showTests (cap : nat) (tests : list jsstring) :
  forall v n,
    Discord.showTests cap tests (v, n)
    = (v ++ concat (map discordLine (firstn (cap - n) tests)),
       n + min (cap - n) (length tests)).
Proof.
  induction tests as [| t tests IH]; intros v n; cbn [Discord.showTests].
  - rewrite firstn_nil, Nat.min_0_r, app_nil_r, Nat.add_0_r. reflexivity.
  - cbn [fst snd]. destruct (cap <=? n) eqn:E.
    + rewrite (room_none _ _ E). cbn. rewrite app_nil_r, Nat.add_0_r.
      reflexivity.
    + rewrite IH, (room_step _ _ E). cbn [firstn map concat length].
      rewrite <- app_assoc. f_equal. lia.
Qed.

Lemma discord_showFiles (cap : nat) (groups : FileMap.t) :
  forall v n,
    Discord.showFiles cap groups (v, n)
    = (v ++ concat (map discordGroup (shownGroups (cap - n) groups)),
       n + titleCount (shownGroups (cap - n) groups)).
Proof.
  induction groups as [| [f tests] groups IH]; intros v n;
    cbn [Discord.showFiles].
  - destruct (cap - n); cbn; rewrite app_nil_r, Nat.add_0_r; reflexivity.
  - cbn [fst snd]. destruct (cap <=? n) eqn:E.
    + rewrite (room_none _ _ E). cbn. rewrite app_nil_r, Nat.add_0_r.
      reflexivity.
    + rewrite discord_showTests. cbn [fst snd]. rewrite IH.
      pose proof (room_step _ _ E) as Hroom.
      destruct (cap - n) as [| k] eqn:Ek; [discriminate |].
      cbn [shownGroups map concat]. rewrite titleCount_cons, length_firstn.
      replace (cap - (n + min (S k) (length tests)))
        with (S k - length tests) by lia.
      f_equal; [| lia].
      unfold discordGroup. cbn [fst snd].
      repeat rewrite <- app_assoc. reflexivity.
Qed.

Lemma discord_groupedFailures (this : Discord.DiscordReporter) :
  Discord.groupedFailures this
  = discordText
      (shownGroups (Discord.maxFailedTestsToShow this)
         (groupByFile (failedTests (Discord.state this))))
      (remainder (Discord.maxFailedTestsToShow this)
         (failedTests (Discord.state this))).
Proof.
  unfold Discord.groupedFailures, discordText, remainder.
  rewrite discord_showFiles. cbn [fst]. rewrite Nat.sub_0_r.
  destruct (Discord.maxFailedTestsToShow this
              <? length (failedTests (Discord.state this)));
    cbn [discordNote app]; [reflexivity | rewrite app_nil_r; reflexivity].
Qed.

Lemma telegram_showTests (cap : nat) (tests : list jsstring) :
  forall v n,
    Telegram.showTests cap tests (v, n)
    = (v ++ concat (map telegramLine (firstn (cap - n) tests)),
       n + min (cap - n) (length tests)).
Proof.
  induction tests as [| t tests IH]; intros v n; cbn [Telegram.showTests].
  - rewrite firstn_nil, Nat.min_0_r, app_nil_r, Nat.add_0_r. reflexivity.
  - cbn [fst snd]. destruct (cap <=? n) eqn:E.
    + rewrite (room_none _ _ E). cbn. rewrite app_nil_r, Nat.add_0_r.
      reflexivity.
    + rewrite IH, (room_step _ _ E). cbn [firstn map concat length].
      rewrite <- app_assoc. f_equal. lia.
Qed.

Lemma telegram_showFiles (cap : nat) (groups : FileMap.t) :
  forall v n,
    Telegram.showFiles cap groups (v, n)
    = (v ++ concat (map telegramGroup (shownGroups (cap - n) groups)),
       n + titleCount (shownGroups (cap - n) groups)).
Proof.
  induction groups as [| [f tests] groups IH]; intros v n;
    cbn [Telegram.showFiles].
  - destruct (cap - n); cbn; rewrite app_nil_r, Nat.add_0_r; reflexivity.
  - cbn [fst snd]. destruct (cap <=? n) eqn:E.
    + rewrite (room_none _ _ E). cbn. rewrite app_nil_r, Nat.add_0_r.
      reflexivity.
    + rewrite telegram_showTests, IH.
      pose proof (room_step _ _ E) as Hroom.
      destruct (cap - n) as [| k] eqn:Ek; [discriminate |].
      cbn [shownGroups map concat]. rewrite titleCount_cons, length_firstn.
      replace (cap - (n + min (S k) (length tests)))
        with (S k - length tests) by lia.
      f_equal; [| lia].
      unfold telegramGroup. cbn [fst snd].
      repeat rewrite <- app_assoc. reflexivity.
Qed.

Lemma telegram_addFailedTests (this : Telegram.TelegramReporter)
  (message : jsstring) :
  Telegram.addFailedTests this message
  = if Telegram.includeFailedTests this
       && (0 <? length (failedTests (Telegram.state this)))
    then message
           ++ telegramText
                (shownGroups (Telegram.maxFailedTestsToShow this)
                   (groupByFile (failedTests (Telegram.state this))))
                (remainder (Telegram.maxFailedTestsToShow this)
                   (failedTests (Telegram.state this)))
    else message.
Proof.
  unfold Telegram.addFailedTests, telegramText, remainder.
  destruct (Telegram.includeFailedTests this
            && (0 <? length (failedTests (Telegram.state this))));
    [| reflexivity].
  rewrite telegram_showFiles. cbn [fst]. rewrite Nat.sub_0_r.
  destruct (Telegram.maxFailedTestsToShow this
              <? length (failedTests (Telegram.state this)));
    cbn [telegramNote]; repeat rewrite <- app_assoc;
    [reflexivity | rewrite app_nil_r; reflexivity].
Qed.




(** C6. The groups of the failures are the files in the order in which each
    is first seen among the recorded failures, each with the titles of its
    tests in the order of recording; both formatters write the groups in
    that order, and the test lines they write are the first
    [maxFailedTestsToShow] lines of that order. *)
Theorem grouping_order :
  (forall failed,
      groupByFile failed
      = map (fun f => (f, titlesOf f failed)) (firstSeen (map file failed)))
  /\ (forall room groups,
         linesOf (shownGroups room groups) = firstn room (linesOf groups))
  /\ (forall this : Discord.DiscordReporter,
         let failed := failedTests (Discord.state this) in
         Discord.groupedFailures this
         = discordText
             (shownGroups (Discord.maxFailedTestsToShow this)
                (map (fun f => (f, titlesOf f failed))
                   (firstSeen (map file failed))))
             (remainder (Discord.maxFailedTestsToShow this) failed))
  /\ (forall (this : Telegram.TelegramReporter) (message : jsstring),
         let failed := failedTests (Telegram.state this) in
         Telegram.addFailedTests this message
         = if Telegram.includeFailedTests this && (0 <? length failed)
           then message
                  ++ telegramText
                       (shownGroups (Telegram.maxFailedTestsToShow this)
                          (map (fun f => (f, titlesOf f failed))
                             (firstSeen (map file failed))))
                       (remainder (Telegram.maxFailedTestsToShow this) failed)
           else message).
Proof.
  split; [exact groupByFile_firstSeen |].
  split; [intros room groups; apply linesOf_shownGroups |].
  split.
  - intros this failed. unfold failed.
    rewrite <- groupByFile_firstSeen. apply discord_groupedFailures.
  - intros this message failed. unfold failed.
    rewrite <- groupByFile_firstSeen. apply telegram_addFailedTests.
Qed.

(** ** The limit of the Discord field *)

Lemma endsWith_skipn (suffix s : jsstring) :
  endsWith suffix s -> skipn (length s - length suffix) s = suffix.
Proof.
  intros [pre ->]. rewrite length_app, Nat.add_sub, skipn_app, skipn_all.
  rewrite Nat.sub_diag. reflexivity.
Qed.

Lemma trimStart_keeps (c : N) (rest : jsstring) :
  isWhiteSpace c = false ->
  forall pre,
    exists pre',
      trimStart (pre ++ c :: rest) = pre' ++ c :: rest
      /\ length pre' <= length pre.
Proof.
  intros Hc. induction pre as [| a pre IH]; cbn [app trimStart].
  - exists []. rewrite Hc. split; [reflexivity | apply Nat.le_refl].
  - destruct (isWhiteSpace a).
    + destruct IH as (pre' & Heq & Hlen). exists pre'.
      split; [exact Heq |]. cbn [length]. lia.
    + exists (a :: pre). split; [reflexivity | apply Nat.le_refl].
Qed.

Lemma trimEnd_keeps (c : N) (s : jsstring) :
  isWhiteSpace c = false -> trimEnd (s ++ [c]) = s ++ [c].
Proof.
  intros Hc. unfold trimEnd. rewrite rev_app_distr. cbn [rev app trimStart].
  rewrite Hc. cbn [rev]. rewrite rev_involutive. reflexivity.
Qed.

(** A text that ends with "..." keeps this end under [trim] and does not
    grow. *)
Lemma trim_dots (pre : jsstring) :
  exists pre',
    trim (pre ++ lit "...") = pre' ++ lit "..."
    /\ length pre' <= length pre.
Proof.
  destruct (trimStart_keeps 46 (lit "..") (eq_refl : isWhiteSpace 46 = false)
              pre) as (pre' & Heq & Hlen).
  exists pre'. split; [| exact Hlen].
  unfold trim. change (lit "...") with (46%N :: lit ".."). rewrite Heq.
  change (pre' ++ 46%N :: lit "..") with (pre' ++ lit ".." ++ [46%N]).
  rewrite app_assoc. apply trimEnd_keeps. reflexivity.
Qed.

Lemma discord_groupedFailures_none (this : Discord.DiscordReporter) :
  failedTests (Discord.state this) = [] -> Discord.groupedFailures this = [].
Proof.
  intros H. unfold Discord.groupedFailures. rewrite H.
  reflexivity.
Qed.

(** C2, as stated, fails for the Telegram variant: the block of the failed
    tests is written whole, here with more than 1024 characters and no
    ellipsis at its end. *)
Lemma telegram_text_not_limited :
  let block := Telegram.addFailedTests telegramLong [] in
  (forall result now timestamp,
      Telegram.buildMessage result now timestamp telegramLong
      = Telegram.summary result now timestamp telegramLong ++ block)
  /\ 1024 < length block
  /\ ~ (length block <= 1024 /\ endsWith (lit "...") block).
Proof.
  split.
  - intros result now timestamp. unfold Telegram.buildMessage.
    rewrite !telegram_addFailedTests. reflexivity.
  - assert (H : length (Telegram.addFailedTests telegramLong []) = 1157)
      by (vm_compute; reflexivity).
    rewrite H. split; [lia |]. intros [Hle _]. lia.
Qed.

(** Nor does that block end with an ellipsis. *)
Lemma telegram_text_no_ellipsis :
  ~ endsWith (lit "...") (Telegram.addFailedTests telegramLong []).
Proof.
  intros H. apply endsWith_skipn in H. vm_compute in H. discriminate H.
Qed.

(** C2, amended. When the text of the failed tests built by the Discord
    formatter has more than 1024 characters, the value of the "Failed Tests"
    field is the trimmed text of its first 1020 characters followed by
    "...": it has at most 1024 characters and ends with "...". The Telegram
    formatter writes the block of the failed tests whole. *)
Theorem discord_field_limit :
  (forall this : Discord.DiscordReporter,
      1024 < length (Discord.groupedFailures this) ->
      Discord.includeFailedTests this = true ->
      exists v,
        Discord.failedTestsField this
        = [{| Discord.name := Discord.iconCross ++ lit " Failed Tests";
              Discord.value := v;
              Discord.inline := false |}]
        /\ v = trim (firstn 1020 (Discord.groupedFailures this) ++ lit "...")
        /\ length v <= 1024
        /\ endsWith (lit "...") v)
  /\ (forall (this : Telegram.TelegramReporter) result now timestamp,
         Telegram.includeFailedTests this = true ->
         failedTests (Telegram.state this) <> [] ->
         Telegram.buildMessage result now timestamp this
         = Telegram.summary result now timestamp this
             ++ telegramText
                  (shownGroups (Telegram.maxFailedTestsToShow this)
                     (groupByFile (failedTests (Telegram.state this))))
                  (remainder (Telegram.maxFailedTestsToShow this)
                     (failedTests (Telegram.state this)))).
Proof.
  split.
  - intros this Hlong Hinc.
    exists (trim (firstn 1020 (Discord.groupedFailures this) ++ lit "...")).
    split; [| split; [reflexivity |]].
    + unfold Discord.failedTestsField, Discord.limitField, substring0.
      rewrite Hinc.
      destruct (failedTests (Discord.state this)) as [| x l] eqn:E.
      * rewrite (discord_groupedFailures_none this E) in Hlong.
        cbn in Hlong. lia.
      * apply Nat.ltb_lt in Hlong. rewrite Hlong. reflexivity.
    + destruct (trim_dots (firstn 1020 (Discord.groupedFailures this)))
        as (pre' & Heq & Hlen).
      rewrite Heq. split; [| exists pre'; reflexivity].
      rewrite length_app. rewrite length_firstn in Hlen.
      change (length (lit "...")) with 3. lia.
  - intros this result now timestamp Hinc Hne.
    unfold Telegram.buildMessage. rewrite telegram_addFailedTests, Hinc.
    destruct (failedTests (Telegram.state this)); [contradiction |].
    reflexivity.
Qed.

Lemma discord_field_limit_witness :
  1024 < length (Discord.groupedFailures discordLong)
  /\ Discord.includeFailedTests discordLong = true
  /\ exists v,
       map Discord.value (Discord.failedTestsField discordLong) = [v]
       /\ length v <= 1024
       /\ endsWith (lit "...") v.
Proof.
  assert (Hlong : 1024 < length (Discord.groupedFailures discordLong))
    by (vm_compute; lia).
  split; [exact Hlong |]. split; [reflexivity |].
  destruct (proj1 discord_field_limit discordLong Hlong eq_refl)
    as (v & Hfield & _ & Hlen & Hend).
  exists v. rewrite Hfield. split; [reflexivity |].
  split; [exact Hlen | exact Hend].
Defined.

End Shown.

Section PassRate.

Lemma getPassRate_rateOf (this : State) :
  getPassRate this = rateOf (passed (stats this)) (total (stats this)).
Proof. reflexivity. Qed.

Lemma rates_up_to_100 : ratesChecked 100 = true.
Proof. vm_compute. reflexivity. Qed.

Lemma rateChecked_nearest (p t : nat) :
  rateChecked p t = true ->
  exists n : Z,
    rateOf p t = tenths n ++ lit "%"
    /\ (2 * Z.abs (n * Z.of_nat t - 1000 * Z.of_nat p) <= Z.of_nat t)%Z.
Proof.
  unfold rateChecked, nearestTenth. intros H.
  apply orb_true_iff in H.
  destruct H as [H | H]; apply andb_true_iff in H; destruct H as [Hs Hn];
    apply str_eqb_eq in Hs; apply Z.leb_le in Hn; eauto.
Qed.

(** C7. The pass rate is "0%" when [total] is 0; otherwise it is
    [(passed / total) * 100], computed on doubles, written by [toFixed(1)]
    and followed by "%". For up to 100 tests this is a tenth of a percent
    nearest to the exact rate, written with one decimal place. 23 passed out
    of 25 gives "92.0%". *)
Theorem pass_rate :
  (forall this, total (stats this) = 0 -> getPassRate this = lit "0%")
  /\ (forall this,
         total (stats this) <> 0 ->
         getPassRate this
         = toFixed 1 (mul (div (ofNat (passed (stats this)))
                               (ofNat (total (stats this)))) (ofNat 100))
             ++ lit "%")
  /\ (forall this,
         0 < total (stats this) <= 100 ->
         passed (stats this) <= total (stats this) ->
         exists n : Z,
           getPassRate this = tenths n ++ lit "%"
           /\ (2 * Z.abs (n * Z.of_nat (total (stats this))
                          - 1000 * Z.of_nat (passed (stats this)))
               <= Z.of_nat (total (stats this)))%Z)
  /\ (forall this,
         passed (stats this) = 23 -> total (stats this) = 25 ->
         getPassRate this = lit "92.0%").
Proof.
  split; [| split; [| split]].
  - intros this H. unfold getPassRate. rewrite H. reflexivity.
  - intros this H. unfold getPassRate.
    apply Nat.eqb_neq in H. rewrite H. reflexivity.
  - intros this Ht Hp. rewrite getPassRate_rateOf.
    apply rateChecked_nearest.
    pose proof rates_up_to_100 as Hall. unfold ratesChecked in Hall.
    rewrite forallb_forall in Hall.
    specialize (Hall (total (stats this))).
    rewrite forallb_forall in Hall.
    apply Hall; apply in_seq; lia.
  - intros this Hp Ht. rewrite getPassRate_rateOf, Hp, Ht.
    vm_compute. reflexivity.
Qed.

Lemma pass_rate_witness :
  total (stats Reporter.init) = 0
  /\ getPassRate Reporter.init = lit "0%".
Proof.
  split; [reflexivity |].
  apply (proj1 pass_rate Reporter.init). reflexivity.
Defined.

End PassRate.

(* ================================================================= *)
(** * The duration written in the message *)

Section Duration.

Lemma agree_fields (a b : State) :
  agree a b ->
  total (stats a) = total (stats b)
  /\ passed (stats a) = passed (stats b)
  /\ failed (stats a) = failed (stats b)
  /\ skipped (stats a) = skipped (stats b)
  /\ flaky (stats a) = flaky (stats b)
  /\ failedTests a = failedTests b
  /\ startTime a = startTime b
  /\ projectName a = projectName b
  /\ baseUrl a = baseUrl b.
Proof.
  unfold agree, setDuration, updStats. intros H.
  injection H as H1 H2 H3 H4 H5 H6 H7 H8 H9. repeat split; assumption.
Qed.

Lemma agree_intro (a b : State) :
  total (stats a) = total (stats b) ->
  passed (stats a) = passed (stats b) ->
  failed (stats a) = failed (stats b) ->
  skipped (stats a) = skipped (stats b) ->
  flaky (stats a) = flaky (stats b) ->
  failedTests a = failedTests b ->
  startTime a = startTime b ->
  projectName a = projectName b ->
  baseUrl a = baseUrl b ->
  agree a b.
Proof.
  unfold agree, setDuration, updStats. intros.
  repeat match goal with H : _ = _ |- _ => rewrite H; clear H end.
  reflexivity.
Qed.

Lemma agree_setDuration (d : number) (this : State) :
  agree (setDuration d this) this.
Proof. reflexivity. Qed.

Lemma extractErrorMessage_errors (r r' : TestResult) :
  errors r = errors r' -> extractErrorMessage r = extractErrorMessage r'.
Proof. unfold extractErrorMessage. intros ->. reflexivity. Qed.

Lemma onTestEnd_agree (test : TestCase) (r r' : TestResult) (a b : State) :
  agree a b ->
  status r = status r' -> retry r = retry r' -> errors r = errors r' ->
  agree (Reporter.onTestEnd test r a) (Reporter.onTestEnd test r' b).
Proof.
  intros Hab Hs Hr He. apply agree_fields in Hab.
  destruct Hab as (H1 & H2 & H3 & H4 & H5 & H6 & H7 & H8 & H9).
  pose proof (extractErrorMessage_errors r r' He) as Hx.
  unfold Reporter.onTestEnd. rewrite <- Hs, <- Hr.
  destruct (status r); cbn [isPassed andb];
    try destruct (0 <? retry r);
    apply agree_intro; cbn; congruence.
Qed.

Lemma run_agree (evs evs' : list (TestCase * TestResult)) :
  Forall2 sameButDuration evs evs' ->
  forall a b, agree a b -> agree (run evs a) (run evs' b).
Proof.
  induction 1 as [| ev ev' evs evs' Hev _ IH]; intros a b Hab.
  - exact Hab.
  - cbn [run fold_left] in *. apply IH. unfold record.
    destruct Hev as (Ht & Hs & Hr & He). rewrite Ht.
    apply onTestEnd_agree; assumption.
Qed.

Lemma run_startTime (evs : list (TestCase * TestResult)) :
  forall this, startTime (run evs this) = startTime this.
Proof.
  induction evs as [| ev evs IH]; intros this; [reflexivity |].
  cbn [run fold_left] in *. rewrite IH. unfold record, Reporter.onTestEnd.
  destruct (status (snd ev)); cbn [isPassed andb];
    try destruct (0 <? retry (snd ev)); reflexivity.
Qed.

(** The formatters read the state up to the cumulative duration. *)
Lemma discord_buildPayload_agree (result : RunStatus) (now : Z)
  (isoNow : jsstring) (this : Discord.DiscordReporter) (st : State) :
  agree st (Discord.state this) ->
  Discord.buildPayload result now isoNow (Discord.withState st this)
  = Discord.buildPayload result now isoNow this.
Proof.
  intros H. apply agree_fields in H.
  destruct H as (H1 & H2 & H3 & H4 & H5 & H6 & H7 & H8 & H9).
  unfold Discord.buildPayload, Discord.failedTestsField,
    Discord.groupedFailures, getPassRate.
  cbn [Discord.withState Discord.state Discord.includeFailedTests
       Discord.maxFailedTestsToShow].
  rewrite H1, H2, H3, H4, H5, H6, H7, H8, H9. reflexivity.
Qed.

Lemma telegram_buildMessage_agree (result : RunStatus) (now : Z)
  (timestamp : jsstring) (this : Telegram.TelegramReporter) (st : State) :
  agree st (Telegram.state this) ->
  Telegram.buildMessage result now timestamp (Telegram.withState st this)
  = Telegram.buildMessage result now timestamp this.
Proof.
  intros H. apply agree_fields in H.
  destruct H as (H1 & H2 & H3 & H4 & H5 & H6 & H7 & H8 & H9).
  unfold Telegram.buildMessage, Telegram.addFailedTests, Telegram.summary,
    getPassRate.
  cbn [Telegram.withState Telegram.state Telegram.includeFailedTests
       Telegram.maxFailedTestsToShow].
  rewrite H1, H2, H3, H4, H5, H6, H7, H8, H9. reflexivity.
Qed.

Lemma discord_run_withState (evs : list (TestCase * TestResult)) :
  forall this,
    Discord.run evs this
    = Discord.withState (run evs (Discord.state this)) this.
Proof.
  induction evs as [| ev evs IH]; intros this.
  - destruct this; reflexivity.
  - cbn [Discord.run run fold_left] in *. rewrite IH. reflexivity.
Qed.

Lemma telegram_run_withState (evs : list (TestCase * TestResult)) :
  forall this,
    Telegram.run evs this
    = Telegram.withState (run evs (Telegram.state this)) this.
Proof.
  induction evs as [| ev evs IH]; intros this.
  - destruct this; reflexivity.
  - cbn [Telegram.run run fold_left] in *. rewrite IH. reflexivity.
Qed.

(** C10. The duration written in the message is [formatDuration] of the
    clock reading at the time the message is built minus the reading taken
    by [onBegin]. The cumulative duration of the statistics is not read by
    the formatters: the message is the same whatever its value, and whatever
    the durations of the recorded results. *)
Theorem duration_is_wall_clock :
  (forall result now isoNow this,
      exists e,
        Discord.embeds (Discord.buildPayload result now isoNow this) = [e]
        /\ nth_error (Discord.fields e) 2
           = Some {| Discord.name := Discord.iconClock ++ lit " Duration";
                     Discord.value :=
                       formatDuration (now - startTime (Discord.state this));
                     Discord.inline := true |})
  /\ (forall result now timestamp this,
         exists rest,
           Telegram.buildMessage result now timestamp this
           = telegramHead result timestamp this
               ++ lit "<b>Duration:</b> "
               ++ formatDuration (now - startTime (Telegram.state this))
               ++ nl ++ nl ++ rest)
  /\ (forall begun projects envBaseUrl evs this,
         startTime (Discord.state
           (Discord.run evs (Discord.onBegin begun projects envBaseUrl this)))
         = begun)
  /\ (forall begun projects envBaseUrl evs this,
         startTime (Telegram.state
           (Telegram.run evs
              (Telegram.onBegin begun projects envBaseUrl this)))
         = begun)
  /\ (forall result now isoNow this d,
         Discord.buildPayload result now isoNow
           (Discord.withState (setDuration d (Discord.state this)) this)
         = Discord.buildPayload result now isoNow this)
  /\ (forall result now timestamp this d,
         Telegram.buildMessage result now timestamp
           (Telegram.withState (setDuration d (Telegram.state this)) this)
         = Telegram.buildMessage result now timestamp this)
  /\ (forall evs evs' result now isoNow this,
         Forall2 sameButDuration evs evs' ->
         Discord.buildPayload result now isoNow (Discord.run evs this)
         = Discord.buildPayload result now isoNow (Discord.run evs' this))
  /\ (forall evs evs' result now timestamp this,
         Forall2 sameButDuration evs evs' ->
         Telegram.buildMessage result now timestamp (Telegram.run evs this)
         = Telegram.buildMessage result now timestamp
             (Telegram.run evs' this)).
Proof.
  repeat apply conj.
  - intros result now isoNow this. eexists. split; reflexivity.
  - intros result now timestamp this.
    unfold Telegram.buildMessage. rewrite telegram_addFailedTests.
    unfold Telegram.summary, telegramHead.
    destruct (0 <? flaky (stats (Telegram.state this)));
      destruct (Telegram.includeFailedTests this
                && (0 <? length (failedTests (Telegram.state this))));
      eexists; repeat rewrite <- app_assoc; reflexivity.
  - intros. rewrite discord_run_state, run_startTime. reflexivity.
  - intros. rewrite telegram_run_state, run_startTime. reflexivity.
  - intros. apply discord_buildPayload_agree, agree_setDuration.
  - intros. apply telegram_buildMessage_agree, agree_setDuration.
  - intros evs evs' result now isoNow this H.
    rewrite (discord_run_withState evs), (discord_run_withState evs').
    rewrite <- (discord_buildPayload_agree result now isoNow
                  (Discord.withState (run evs' (Discord.state this)) this)
                  (st := run evs (Discord.state this))).
    + reflexivity.
    + apply run_agree; [exact H | reflexivity].
  - intros evs evs' result now timestamp this H.
    rewrite (telegram_run_withState evs), (telegram_run_withState evs').
    rewrite <- (telegram_buildMessage_agree result now timestamp
                  (Telegram.withState (run evs' (Telegram.state this)) this)
                  (st := run evs (Telegram.state this))).
    + reflexivity.
    + apply run_agree; [exact H | reflexivity].
Qed.

Lemma duration_is_wall_clock_witness :
  Forall2 sameButDuration sevenFailures sevenSlower
  /\ Telegram.buildMessage RunFailed 165000 (lit "1/2/26, 3:04 PM")
       (Telegram.run sevenFailures telegramSeven)
     = Telegram.buildMessage RunFailed 165000 (lit "1/2/26, 3:04 PM")
         (Telegram.run sevenSlower telegramSeven).
Proof.
  assert (H : Forall2 sameButDuration sevenFailures sevenSlower).
  { unfold sevenSlower, sevenFailures.
    repeat (apply Forall2_cons; [repeat split |]). apply Forall2_nil. }
  split; [exact H |].
  apply (proj2 (proj2 (proj2 (proj2 (proj2 (proj2 (proj2
           duration_is_wall_clock))))))). exact H.
Defined.

End Duration.

(* ================================================================= *)
(** * The delivery step *)

Section Delivery.

(** C9, as stated, fails: a reporter that is not enabled and has no
    credentials ends the run without a call and without logging that the
    notification is skipped. *)
Lemma disabled_reporter_logs_nothing :
  let ended :=
    Discord.onEnd RunPassed 1000 (lit "2026-01-02T15:04:05.000Z")
      (Eff.Throw (lit "TypeError: fetch failed")) discordDefault in
  Discord.isConfigured discordDefault = false
  /\ fst ended = []
  /\ ~ In (Eff.ConsoleLog discordSkipped) (fst ended).
Proof.
  cbn. split; [reflexivity |]. split; [reflexivity |]. intros H. exact H.
Qed.

(** C9, amended. The end-of-run handler of either reporter returns normally
    whatever the network answers. A reporter that is not enabled does
    nothing. An enabled reporter without credentials makes no call and logs
    that the notification is skipped. An enabled reporter with credentials
    makes one call; an exception of the call or of reading the body, and a
    response outside 2xx, are caught and logged as an error. *)
Theorem delivery_returns_normally :
  (forall result now isoNow net this,
      let ended := Discord.onEnd result now isoNow net this in
      snd ended = Eff.Normal tt
      /\ (Discord.enabled this = false -> fst ended = [])
      /\ (Discord.isConfigured this = false ->
          filter (@Eff.isFetch _) (fst ended) = [])
      /\ (Discord.enabled this = true ->
          Discord.isConfigured this = false ->
          fst ended = [Eff.ConsoleLog discordSkipped])
      /\ (Discord.enabled this = true ->
          Discord.isConfigured this = true ->
          filter (@Eff.isFetch _) (fst ended)
          = [Eff.Fetch (Discord.webhookUrl this,
                        Discord.buildPayload result now isoNow this)]
          /\ (forall e,
                 net = Eff.Throw e ->
                 filter (@Eff.isConsoleError _) (fst ended)
                 = [Eff.ConsoleError
                      (lit "[Discord Reporter] Error sending message - "
                         ++ e)])
          /\ (forall r,
                 net = Eff.Normal r -> Eff.ok r = false ->
                 exists msg,
                   filter (@Eff.isConsoleError _) (fst ended)
                   = [Eff.ConsoleError msg])))
  /\ (forall result now timestamp net this,
         let ended := Telegram.onEnd result now timestamp net this in
         snd ended = Eff.Normal tt
         /\ (Telegram.enabled this = false -> fst ended = [])
         /\ (Telegram.isConfigured this = false ->
             filter (@Eff.isFetch _) (fst ended) = [])
         /\ (Telegram.enabled this = true ->
             Telegram.isConfigured this = false ->
             fst ended = [Eff.ConsoleLog telegramSkipped])
         /\ (Telegram.enabled this = true ->
             Telegram.isConfigured this = true ->
             filter (@Eff.isFetch _) (fst ended)
             = [Eff.Fetch
                  (telegramUrl this,
                   {| Telegram.chat_id := Telegram.chatId this;
                      Telegram.text :=
                        Telegram.buildMessage result now timestamp this;
                      Telegram.parse_mode := lit "HTML";
                      Telegram.disable_web_page_preview := true |})]
             /\ (forall e,
                    net = Eff.Throw e ->
                    filter (@Eff.isConsoleError _) (fst ended)
                    = [Eff.ConsoleError
                         (lit "[Telegram Reporter] Error sending message - "
                            ++ e)])
             /\ (forall r,
                    net = Eff.Normal r -> Eff.ok r = false ->
                    exists msg,
                      filter (@Eff.isConsoleError _) (fst ended)
                      = [Eff.ConsoleError msg]))).
Proof.
  split.
  - intros result now isoNow net this ended. subst ended.
    unfold Discord.onEnd, Discord.sendDiscordMessage.
    destruct (Discord.enabled this); cbn [negb];
      [| repeat split; intros; try discriminate; reflexivity].
    destruct (Discord.isConfigured this); cbn [negb];
      [| repeat split; intros; try discriminate; reflexivity].
    destruct net as [r | e].
    + unfold Eff.fetch, Eff.bind, Eff.tryCatch.
      destruct (Eff.ok r) eqn:Hok; cbn [negb fst snd].
      * repeat split; intros; try discriminate; try reflexivity.
        match goal with H : Eff.Normal _ = Eff.Normal _ |- _ =>
          injection H as <- end. congruence.
      * destruct (Eff.r_text r) as [t | e]; cbn;
          repeat split; intros; try discriminate; try reflexivity;
          eexists; reflexivity.
    + cbn. repeat split; intros; try discriminate; try reflexivity.
      match goal with H : Eff.Throw _ = Eff.Throw _ |- _ =>
        injection H as <- end. reflexivity.
  - intros result now timestamp net this ended. subst ended.
    unfold Telegram.onEnd, Telegram.sendTelegramMessage, telegramUrl.
    destruct (Telegram.enabled this); cbn [negb];
      [| repeat split; intros; try discriminate; reflexivity].
    destruct (Telegram.isConfigured this); cbn [negb];
      [| repeat split; intros; try discriminate; reflexivity].
    destruct net as [r | e].
    + unfold Eff.fetch, Eff.bind, Eff.tryCatch.
      destruct (Eff.ok r) eqn:Hok; cbn [negb fst snd].
      * repeat split; intros; try discriminate; try reflexivity.
        match goal with H : Eff.Normal _ = Eff.Normal _ |- _ =>
          injection H as <- end. congruence.
      * destruct (Eff.r_json r) as [t | e]; cbn;
          repeat split; intros; try discriminate; try reflexivity;
          eexists; reflexivity.
    + cbn. repeat split; intros; try discriminate; try reflexivity.
      match goal with H : Eff.Throw _ = Eff.Throw _ |- _ =>
        injection H as <- end. reflexivity.
Qed.

Lemma delivery_returns_normally_witness :
  let timestamp := lit "2026-01-02T15:04:05.000Z" in
  let down := Eff.Throw (lit "TypeError: fetch failed") in
  (Discord.enabled discordUnconfigured = true
   /\ Discord.isConfigured discordUnconfigured = false
   /\ fst (Discord.onEnd RunFailed 1000 timestamp down discordUnconfigured)
      = [Eff.ConsoleLog discordSkipped])
  /\ (Discord.enabled discordSeven = true
      /\ Discord.isConfigured discordSeven = true
      /\ filter (@Eff.isConsoleError _)
           (fst (Discord.onEnd RunFailed 1000 timestamp down discordSeven))
         = [Eff.ConsoleError
              (lit "[Discord Reporter] Error sending message - TypeError: fetch failed")]).
Proof.
  intros timestamp down. split.
  - split; [reflexivity |]. split; [reflexivity |].
    exact (proj1 (proj2 (proj2 (proj2
             (proj1 delivery_returns_normally RunFailed 1000%Z timestamp down
                discordUnconfigured)))) eq_refl eq_refl).
  - split; [reflexivity |]. split; [reflexivity |].
    exact (proj1 (proj2 (proj2 (proj2 (proj2 (proj2
             (proj1 delivery_returns_normally RunFailed 1000%Z timestamp down
                discordSeven)))) eq_refl eq_refl))
             (lit "TypeError: fetch failed") eq_refl).
Defined.

End Delivery.

(* ================================================================= *)
(** * More on the collector *)

Section CollectorCounts.

Lemma onTestEnd_effect (test : TestCase) (r : TestResult) (this : State) :
  let after := Reporter.onTestEnd test r this in
  total (stats after) = S (total (stats this))
  /\ passed (stats after)
     = passed (stats this) + (if hasStatus StPassed r then 1 else 0)
  /\ failed (stats after)
     = failed (stats this) + (if failing r then 1 else 0)
  /\ skipped (stats after)
     = skipped (stats this) + (if hasStatus StSkipped r then 1 else 0)
  /\ flaky (stats after)
     = flaky (stats this) + (if passedOnRetry r then 1 else 0)
  /\ failedTests after
     = failedTests this
         ++ (if failing r then [recordOf (test, r)] else [])
  /\ startTime after = startTime this
  /\ projectName after = projectName this
  /\ baseUrl after = baseUrl this.
Proof.
  unfold Reporter.onTestEnd, failing, passedOnRetry, hasStatus, recordOf.
  destruct (status r); cbn [isPassed andb orb];
    try destruct (0 <? retry r); cbn;
    rewrite ?app_nil_r; repeat split; lia.
Qed.

Lemma run_effect (evs : list (TestCase * TestResult)) :
  forall this,
    let after := run evs this in
    total (stats after) = total (stats this) + length evs
    /\ passed (stats after)
       = passed (stats this) + countIf (hasStatus StPassed) evs
    /\ failed (stats after) = failed (stats this) + countIf failing evs
    /\ skipped (stats after)
       = skipped (stats this) + countIf (hasStatus StSkipped) evs
    /\ flaky (stats after) = flaky (stats this) + countIf passedOnRetry evs
    /\ failedTests after
       = failedTests this ++ map recordOf (filter (fun ev => failing (snd ev)) evs)
    /\ startTime after = startTime this
    /\ projectName after = projectName this
    /\ baseUrl after = baseUrl this.
Proof.
  induction evs as [| [test r] evs IH]; intros this.
  - cbn. rewrite app_nil_r. repeat split; lia.
  - change (run ((test, r) :: evs) this)
      with (run evs (Reporter.onTestEnd test r this)).
    destruct (IH (Reporter.onTestEnd test r this))
      as (H1 & H2 & H3 & H4 & H5 & H6 & H7 & H8 & H9).
    destruct (onTestEnd_effect test r this)
      as (E1 & E2 & E3 & E4 & E5 & E6 & E7 & E8 & E9).
    cbn zeta.
    rewrite H1, H2, H3, H4, H5, H6, H7, H8, H9.
    rewrite E1, E2, E3, E4, E5, E6, E7, E8, E9.
    unfold countIf. cbn [filter snd length].
    destruct (hasStatus StPassed r); destruct (failing r);
      destruct (hasStatus StSkipped r); destruct (passedOnRetry r);
      cbn [length map app]; rewrite <- ?app_assoc; cbn [app];
      repeat split; lia.
Qed.

(** X1. Whatever the statuses, each counter of a new reporter is the number
    of recorded results of its kind: [total] counts all results, [failed]
    the failed and the timed-out ones, [flaky] the ones passed on a retry;
    an interrupted result is counted in [total] alone. *)
Theorem collector_counts (evs : list (TestCase * TestResult)) :
  let this := run evs Reporter.init in
  total (stats this) = length evs
  /\ passed (stats this) = countIf (hasStatus StPassed) evs
  /\ failed (stats this) = countIf failing evs
  /\ skipped (stats this) = countIf (hasStatus StSkipped) evs
  /\ flaky (stats this) = countIf passedOnRetry evs
  /\ total (stats this)
     = passed (stats this) + failed (stats this) + skipped (stats this)
       + countIf (hasStatus StInterrupted) evs.
Proof.
  destruct (run_effect evs Reporter.init) as (H1 & H2 & H3 & H4 & H5 & _).
  cbn [Reporter.init stats initStats total passed failed skipped flaky] in *.
  cbn zeta. rewrite H1, H2, H3, H4, H5. repeat split.
  unfold countIf, failing, hasStatus. clear.
  induction evs as [| [test r] evs IH]; [reflexivity |].
  cbn [filter length snd]. destruct (status r); cbn [orb length]; lia.
Qed.

(** X2. The list of failed tests of a new reporter holds one record per
    failed or timed-out result, in the order of the results, with the title
    of the test, the last segment of its file and the extracted message;
    records are only ever added at the end. *)
Theorem failures_in_order :
  (forall evs,
      failedTests (run evs Reporter.init)
      = map recordOf (filter (fun ev => failing (snd ev)) evs))
  /\ (forall evs this,
         exists added, failedTests (run evs this) = failedTests this ++ added).
Proof.
  split.
  - intros evs.
    destruct (run_effect evs Reporter.init) as (_ & _ & _ & _ & _ & H & _).
    exact H.
  - intros evs this.
    destruct (run_effect evs this) as (_ & _ & _ & _ & _ & H & _).
    eexists. exact H.
Qed.

End CollectorCounts.

(* ================================================================= *)
(** * Durations and file names *)

Section DurationsAndFiles.

(** X3. A span under one minute (a negative one too) is written as its
    whole seconds, rounded down, followed by "s"; a span of a minute or
    more is written as its whole minutes, "m", the seconds left over, which
    are between 0 and 59, and "s". *)
Theorem formatDuration_ranges (ms : Z) :
  ((ms < 60000)%Z ->
   formatDuration ms = showZ (ms / 1000) ++ lit "s")
  /\ ((60000 <= ms)%Z ->
      formatDuration ms
      = showZ (ms / 60000) ++ lit "m " ++ showZ ((ms / 1000) mod 60)
          ++ lit "s"
      /\ (0 <= (ms / 1000) mod 60 < 60)%Z
      /\ (ms / 1000 = 60 * (ms / 60000) + (ms / 1000) mod 60)%Z).
Proof.
  unfold formatDuration.
  assert (Hdiv : (ms / 1000 / 60 = ms / 60000)%Z)
    by (rewrite Z.div_div by lia; reflexivity).
  rewrite Hdiv. split.
  - intros H.
    assert (Hm : (0 <? ms / 60000)%Z = false).
    { apply Z.ltb_ge. apply Z.lt_succ_r. apply Z.div_lt_upper_bound; lia. }
    rewrite Hm. reflexivity.
  - intros H.
    assert (Hm : (0 <? ms / 60000)%Z = true).
    { apply Z.ltb_lt. apply Z.div_str_pos. lia. }
    rewrite Hm.
    assert (Hs : (0 <= ms / 1000)%Z) by (apply Z.div_pos; lia).
    rewrite (Z.rem_mod_nonneg _ _ Hs) by lia.
    split; [reflexivity |]. split; [apply Z.mod_pos_bound; lia |].
    rewrite <- Hdiv. apply Z.div_mod. lia.
Qed.

Lemma formatDuration_ranges_witness :
  formatDuration 45000 = lit "45s"
  /\ formatDuration 165000 = lit "2m 45s".
Proof.
  split.
  - rewrite (proj1 (formatDuration_ranges 45000)) by lia. reflexivity.
  - rewrite (proj1 (proj2 (formatDuration_ranges 165000) ltac:(lia))).
    reflexivity.
Defined.

Lemma splitPath_no_separator (s : jsstring) :
  segment s -> splitPath s = [s].
Proof.
  induction 1 as [| c s Hc _ IH]; [reflexivity |].
  cbn [splitPath]. rewrite Hc, IH. reflexivity.
Qed.

Lemma splitPath_at_separator (c : N) (rest : jsstring) :
  isPathSep c = true ->
  forall dir,
    exists first others,
      splitPath (dir ++ c :: rest) = (first :: others) ++ splitPath rest.
Proof.
  intros Hc. induction dir as [| a dir IH]; cbn [app splitPath].
  - rewrite Hc. exists [], []. reflexivity.
  - destruct IH as (first & others & IH). rewrite IH.
    destruct (isPathSep a).
    + exists [], (first :: others). reflexivity.
    + exists (a :: first), others. reflexivity.
Qed.

Lemma pop_last (init : list jsstring) (x : jsstring) :
  pop (init ++ [x]) = Some x.
Proof. unfold pop. rewrite rev_app_distr. reflexivity. Qed.

(** X4. The file of a failure record is the part of the path of the test
    after its last [/] or [\]; a path without a separator, and a path that
    ends with one, is kept whole. *)
Theorem fileName_last_segment :
  (forall dir c base,
      isPathSep c = true -> segment base -> base <> [] ->
      fileName (dir ++ c :: base) = base)
  /\ (forall path, segment path -> fileName path = path)
  /\ (forall dir c,
         isPathSep c = true -> fileName (dir ++ [c]) = dir ++ [c]).
Proof.
  unfold fileName. split; [| split].
  - intros dir c base Hc Hseg Hne.
    destruct (@splitPath_at_separator c base Hc dir) as (first & others & H).
    rewrite H, (splitPath_no_separator Hseg), pop_last.
    destruct base; [contradiction | reflexivity].
  - intros path Hseg. rewrite (splitPath_no_separator Hseg).
    destruct path; reflexivity.
  - intros dir c Hc.
    destruct (@splitPath_at_separator c [] Hc dir) as (first & others & H).
    rewrite H. cbn [splitPath]. rewrite pop_last. reflexivity.
Qed.

Lemma fileName_last_segment_witness :
  fileName (lit "C:\repo\tests" ++ 0x5C%N :: lit "login.spec.ts")
  = lit "login.spec.ts".
Proof.
  apply (proj1 fileName_last_segment).
  - reflexivity.
  - unfold segment. repeat constructor.
  - discriminate.
Defined.

End DurationsAndFiles.

(* ================================================================= *)
(** * More on the escaping *)

Section EscapingMore.

Lemma escapeHtml_flat (text : jsstring) :
  Telegram.escapeHtml text = flat_map escapeChar text.
Proof.
  induction text as [| c s IH]; [reflexivity |].
  rewrite escapeHtml_cons, IH. reflexivity.
Qed.

(** The four shapes of an escaped character. *)
Lemma escapeChar_cases (c : N) :
  (c = 0x26%N /\ escapeChar c = lit "&amp;")
  \/ (c = 0x3C%N /\ escapeChar c = lit "&lt;")
  \/ (c = 0x3E%N /\ escapeChar c = lit "&gt;")
  \/ (c <> 0x26%N /\ c <> 0x3C%N /\ c <> 0x3E%N /\ escapeChar c = [c]).
Proof.
  unfold escapeChar.
  destruct (N.eqb_spec c 0x26); [auto |].
  destruct (N.eqb_spec c 0x3C); [auto |].
  destruct (N.eqb_spec c 0x3E); [auto |].
  right; right; right. auto.
Qed.

(** X5. Escaping loses nothing: two texts with the same escaped form are
    the same text. *)
Theorem escapeHtml_injective (a b : jsstring) :
  Telegram.escapeHtml a = Telegram.escapeHtml b -> a = b.
Proof.
  rewrite !escapeHtml_flat. revert b.
  induction a as [| c a IH]; intros [| d b] H.
  - reflexivity.
  - cbn [flat_map] in H.
    destruct (escapeChar_cases d) as [[_ E] | [[_ E] | [[_ E] | (_ & _ & _ & E)]]];
      rewrite E in H; discriminate H.
  - cbn [flat_map] in H.
    destruct (escapeChar_cases c) as [[_ E] | [[_ E] | [[_ E] | (_ & _ & _ & E)]]];
      rewrite E in H; discriminate H.
  - cbn [flat_map] in H.
    destruct (escapeChar_cases c)
      as [[Hc E] | [[Hc E] | [[Hc E] | (Hc1 & Hc2 & Hc3 & E)]]];
      destruct (escapeChar_cases d)
        as [[Hd E'] | [[Hd E'] | [[Hd E'] | (Hd1 & Hd2 & Hd3 & E')]]];
      rewrite E, E' in H; cbn in H; try discriminate H;
      try (injection H as H; subst; f_equal; apply IH; assumption);
      try (injection H as H0 H; subst; congruence).
Qed.

Lemma escapeHtml_injective_witness :
  lit "a<b" = lit "a<b".
Proof.
  apply escapeHtml_injective. reflexivity.
Defined.

(** X6. An escaped text holds no [<] and no [>], is at least as long as the
    text, and is the text itself when the text holds none of [&], [<] and
    [>]. *)
Theorem escapeHtml_safe :
  (forall text,
      Forall (fun c => c <> 0x3C%N /\ c <> 0x3E%N) (Telegram.escapeHtml text))
  /\ (forall text, length text <= length (Telegram.escapeHtml text))
  /\ (forall text,
         Forall (fun c => c <> 0x26%N /\ c <> 0x3C%N /\ c <> 0x3E%N) text ->
         Telegram.escapeHtml text = text).
Proof.
  split; [| split].
  - intros text. rewrite escapeHtml_flat.
    induction text as [| c s IH]; [constructor |].
    cbn [flat_map]. apply Forall_app. split; [| exact IH].
    destruct (escapeChar_cases c)
      as [[_ E] | [[_ E] | [[_ E] | (_ & H2 & H3 & E)]]]; rewrite E.
    1-3: repeat constructor; discriminate.
    constructor; [split; assumption | constructor].
  - intros text. rewrite escapeHtml_flat.
    induction text as [| c s IH]; [apply Nat.le_refl |].
    cbn [flat_map]. rewrite length_app. cbn [length].
    destruct (escapeChar_cases c)
      as [[_ E] | [[_ E] | [[_ E] | (_ & _ & _ & E)]]]; rewrite E;
      cbn [length lit map list_ascii_of_string]; lia.
  - intros text H. rewrite escapeHtml_flat.
    induction H as [| c s (H1 & H2 & H3) _ IH]; [reflexivity |].
    cbn [flat_map]. rewrite IH.
    destruct (escapeChar_cases c)
      as [[Hc _] | [[Hc _] | [[Hc _] | (_ & _ & _ & E)]]];
      try contradiction.
    rewrite E. reflexivity.
Qed.

Lemma escapeHtml_safe_witness :
  Telegram.escapeHtml (lit "login works") = lit "login works".
Proof.
  apply (proj2 (proj2 escapeHtml_safe)).
  repeat constructor; discriminate.
Defined.

End EscapingMore.

(* ================================================================= *)
(** * The shape of the messages *)

Section MessageShape.

Lemma trimStart_length (s : jsstring) : length (trimStart s) <= length s.
Proof.
  induction s as [| c s IH]; cbn [trimStart length]; [lia |].
  destruct (isWhiteSpace c); cbn [length]; lia.
Qed.

Lemma trim_length (s : jsstring) : length (trim s) <= length s.
Proof.
  unfold trim, trimEnd. rewrite length_rev.
  etransitivity; [apply trimStart_length |].
  rewrite length_rev. apply trimStart_length.
Qed.

Lemma trimStart_In (c : N) (s : jsstring) :
  isWhiteSpace c = false -> In c s -> In c (trimStart s).
Proof.
  intros Hc. induction s as [| a s IH]; intros Hin; [contradiction |].
  cbn [trimStart]. destruct (isWhiteSpace a) eqn:Ea; [| exact Hin].
  destruct Hin as [-> | Hin]; [congruence | apply IH; exact Hin].
Qed.

(** A text with a character that is not white space is not trimmed to
    nothing. *)
Lemma trim_In (c : N) (s : jsstring) :
  isWhiteSpace c = false -> In c s -> In c (trim s).
Proof.
  intros Hc Hin. unfold trim, trimEnd.
  apply in_rev. rewrite rev_involutive.
  apply trimStart_In; [exact Hc |].
  apply in_rev. rewrite rev_involutive.
  apply trimStart_In; assumption.
Qed.

Lemma groupByFile_nonempty (failed : list FailedTest) :
  failed <> [] -> groupByFile failed <> [].
Proof.
  intros Hne Hg. pose proof (titleCount_groupByFile failed) as H.
  rewrite Hg in H. destruct failed; [contradiction | discriminate H].
Qed.

(** The text of the failed tests of a reporter with failures holds a
    character that is not white space. *)
Lemma discord_groupedFailures_visible (this : Discord.DiscordReporter) :
  failedTests (Discord.state this) <> [] ->
  exists c,
    isWhiteSpace c = false /\ In c (Discord.groupedFailures this).
Proof.
  intros Hne. rewrite discord_groupedFailures. unfold discordText, remainder.
  destruct (Discord.maxFailedTestsToShow this) as [| k] eqn:Ecap.
  - destruct (failedTests (Discord.state this)) as [| x l]; [contradiction |].
    exists 0x5F%N. split; [reflexivity |].
    apply in_or_app. right. left. reflexivity.
  - pose proof (groupByFile_nonempty Hne) as Hg.
    destruct (groupByFile (failedTests (Discord.state this)))
      as [| [f tests] groups]; [contradiction |].
    exists 0xF8FF%N. split; [reflexivity |].
    cbn [shownGroups map concat]. unfold discordGroup, Discord.iconPage.
    cbn [app]. left. reflexivity.
Qed.

(** X7. The value of the "Failed Tests" field, when the field is written,
    is never empty and never longer than 1024 characters. *)
Theorem failed_tests_field_bounds (this : Discord.DiscordReporter) :
  Forall (fun f => Discord.value f <> []
                   /\ length (Discord.value f) <= 1024)
    (Discord.failedTestsField this).
Proof.
  unfold Discord.failedTestsField.
  destruct (Discord.includeFailedTests this); cbn [andb]; [| constructor].
  destruct (failedTests (Discord.state this)) as [| x l] eqn:E;
    cbn [length Nat.ltb Nat.leb]; [constructor |].
  constructor; [| constructor]. cbn [Discord.value].
  assert (Hne : failedTests (Discord.state this) <> [])
    by (rewrite E; discriminate).
  destruct (discord_groupedFailures_visible this Hne) as (c & Hc & Hin).
  unfold Discord.limitField, substring0.
  destruct (1024 <? length (Discord.groupedFailures this)) eqn:El.
  - split.
    + intros H.
      assert (Hd : In 46%N
                (trim (firstn 1020 (Discord.groupedFailures this)
                         ++ lit "...")))
        by (apply trim_In; [reflexivity |]; apply in_or_app; right;
            left; reflexivity).
      rewrite H in Hd. exact Hd.
    + etransitivity; [apply trim_length |].
      rewrite length_app, length_firstn. change (length (lit "...")) with 3.
      lia.
  - apply Nat.ltb_ge in El. split.
    + intros H. pose proof (@trim_In c _ Hc Hin) as Hin'.
      rewrite H in Hin'. exact Hin'.
    + etransitivity; [apply trim_length | exact El].
Qed.

Lemma titlesOf_present (f : jsstring) (failed : list FailedTest) :
  In f (map file failed) -> titlesOf f failed <> [].
Proof.
  unfold titlesOf. induction failed as [| x failed IH]; [contradiction |].
  cbn [map filter]. intros [Hx | Hin].
  - rewrite Hx, str_eqb_refl. discriminate.
  - destruct (str_eqb (file x) f); [discriminate | apply IH; exact Hin].
Qed.

Lemma shownGroups_keys (groups : FileMap.t) :
  forall room,
    exists rest,
      map fst groups = map fst (shownGroups room groups) ++ rest.
Proof.
  induction groups as [| [f tests] groups IH]; intros room.
  - exists []. destruct room; reflexivity.
  - destruct room as [| k].
    + eexists. reflexivity.
    + destruct (IH (S k - length tests)) as (rest & H).
      exists rest. cbn [shownGroups map fst app]. rewrite H. reflexivity.
Qed.

Lemma shownGroups_nonempty (groups : FileMap.t) :
  Forall (fun g => snd g <> []) groups ->
  forall room, Forall (fun g => snd g <> []) (shownGroups room groups).
Proof.
  induction 1 as [| [f tests] groups Hg _ IH]; intros room.
  - destruct room; constructor.
  - destruct room as [| k]; [constructor |].
    cbn [shownGroups]. constructor; [| apply IH].
    cbn [snd] in *. destruct tests; [contradiction | discriminate].
Qed.

(** The shown groups have distinct files and no group without a test. *)
Lemma shownGroups_shape (cap : nat) (failed : list FailedTest) :
  NoDup (map fst (shownGroups cap (groupByFile failed)))
  /\ Forall (fun g => snd g <> []) (shownGroups cap (groupByFile failed)).
Proof.
  split.
  - destruct (shownGroups_keys (groupByFile failed) cap) as (rest & H).
    assert (Hnd : NoDup (map fst (groupByFile failed))).
    { rewrite groupByFile_firstSeen, map_map. cbn [fst]. rewrite map_id.
      apply firstSeen_NoDup. }
    rewrite H in Hnd. apply NoDup_app_remove_r in Hnd. exact Hnd.
  - apply shownGroups_nonempty.
    rewrite groupByFile_firstSeen. apply Forall_map. apply Forall_forall.
    intros f Hf. cbn [snd]. apply titlesOf_present.
    apply firstSeen_In. exact Hf.
Qed.

(** X8. The text of the failed tests that the formatters build, which is
    the Telegram block and the Discord text before the limit of its field,
    is the text of groups with one heading per file and at least one test
    line under every heading; the Discord field carries this text, trimmed,
    when it has at most 1024 characters. (A field cut by the limit can end
    anywhere, also after a heading.) *)
Theorem headings_distinct_and_used :
  (forall this : Discord.DiscordReporter,
      let shown :=
        shownGroups (Discord.maxFailedTestsToShow this)
          (groupByFile (failedTests (Discord.state this))) in
        Discord.groupedFailures this
        = discordText shown
            (remainder (Discord.maxFailedTestsToShow this)
               (failedTests (Discord.state this)))
        /\ NoDup (map fst shown)
        /\ Forall (fun g => snd g <> []) shown
        /\ (Discord.includeFailedTests this = true ->
            failedTests (Discord.state this) <> [] ->
            length (Discord.groupedFailures this) <= 1024 ->
            map Discord.value (Discord.failedTestsField this)
            = [trim (discordText shown
                       (remainder (Discord.maxFailedTestsToShow this)
                          (failedTests (Discord.state this))))]))
  /\ (forall (this : Telegram.TelegramReporter) (message : jsstring),
         let shown :=
           shownGroups (Telegram.maxFailedTestsToShow this)
             (groupByFile (failedTests (Telegram.state this))) in
           Telegram.addFailedTests this message
           = (if Telegram.includeFailedTests this
                 && (0 <? length (failedTests (Telegram.state this)))
              then message
                     ++ telegramText shown
                          (remainder (Telegram.maxFailedTestsToShow this)
                             (failedTests (Telegram.state this)))
              else message)
           /\ NoDup (map fst shown)
           /\ Forall (fun g => snd g <> []) shown).
Proof.
  split.
  - intros this shown. subst shown.
    destruct (shownGroups_shape (Discord.maxFailedTestsToShow this)
                (failedTests (Discord.state this))) as (Hnd & Hne).
    split; [apply discord_groupedFailures |].
    split; [exact Hnd |]. split; [exact Hne |].
    intros Hinc Hfail Hlen. rewrite <- discord_groupedFailures.
    unfold Discord.failedTestsField, Discord.limitField. rewrite Hinc.
    destruct (failedTests (Discord.state this)); [contradiction |].
    apply Nat.ltb_ge in Hlen. rewrite Hlen. reflexivity.
  - intros this message shown. subst shown.
    destruct (shownGroups_shape (Telegram.maxFailedTestsToShow this)
                (failedTests (Telegram.state this))) as (Hnd & Hne).
    split; [apply telegram_addFailedTests |].
    split; [exact Hnd | exact Hne].
Qed.

Lemma headings_distinct_and_used_witness :
  let shown :=
    shownGroups 5 (groupByFile (failedTests (Discord.state discordSeven))) in
  map Discord.value (Discord.failedTestsField discordSeven)
  = [trim (discordText shown (Some 2))]
  /\ NoDup (map fst shown)
  /\ Forall (fun g => snd g <> []) shown.
Proof.
  destruct (proj1 headings_distinct_and_used discordSeven)
    as (_ & Hnd & Hne & Hfield).
  cbn zeta. split; [| split; assumption].
  apply Hfield.
  - reflexivity.
  - vm_compute. discriminate.
  - vm_compute. lia.
Defined.

(** X9. The embed has the four fields Project, Environment, Duration and
    Results, followed by the field of the failed tests exactly when
    [includeFailedTests] is set and a failure was recorded; the Telegram
    message ends after the pass rate in the other case. *)
Theorem failures_section_optional :
  (forall result now isoNow this,
      exists e,
        Discord.embeds (Discord.buildPayload result now isoNow this) = [e]
        /\ map Discord.name (Discord.fields e)
           = baseFieldNames
               ++ (if Discord.includeFailedTests this
                      && (0 <? length (failedTests (Discord.state this)))
                   then [Discord.iconCross ++ lit " Failed Tests"]
                   else []))
  /\ (forall result now timestamp this,
         Telegram.includeFailedTests this = false
         \/ failedTests (Telegram.state this) = [] ->
         Telegram.buildMessage result now timestamp this
         = Telegram.summary result now timestamp this)
  /\ (forall result now timestamp this,
         Telegram.includeFailedTests this = true ->
         failedTests (Telegram.state this) <> [] ->
         length (Telegram.summary result now timestamp this)
         < length (Telegram.buildMessage result now timestamp this)).
Proof.
  split; [| split].
  - intros result now isoNow this. eexists. split; [reflexivity |].
    cbn [Discord.fields]. rewrite map_app. unfold Discord.failedTestsField.
    destruct (Discord.includeFailedTests this
              && (0 <? length (failedTests (Discord.state this))));
      reflexivity.
  - intros result now timestamp this H.
    unfold Telegram.buildMessage. rewrite telegram_addFailedTests.
    destruct H as [-> | ->]; [reflexivity |].
    rewrite andb_false_r. reflexivity.
  - intros result now timestamp this Hinc Hne.
    unfold Telegram.buildMessage. rewrite telegram_addFailedTests, Hinc.
    destruct (failedTests (Telegram.state this)) eqn:E; [contradiction |].
    cbn [andb length Nat.ltb Nat.leb]. rewrite length_app.
    unfold telegramText. cbn [app length nl]. lia.
Qed.

Lemma failures_section_optional_witness :
  length (Telegram.summary RunFailed 165000 (lit "1/2/26, 3:04 PM")
            telegramSeven)
  < length (Telegram.buildMessage RunFailed 165000 (lit "1/2/26, 3:04 PM")
              telegramSeven).
Proof.
  apply (proj2 (proj2 failures_section_optional)).
  - reflexivity.
  - vm_compute. discriminate.
Defined.

Lemma formatDuration_visible (ms : Z) : formatDuration ms <> [].
Proof.
  unfold formatDuration. destruct (0 <? ms / 1000 / 60)%Z;
    intros H; apply app_eq_nil in H; destruct H as [_ H].
  - apply app_eq_nil in H. destruct H as [H _]. discriminate H.
  - discriminate H.
Qed.

(** X10. Once [onBegin] has run, every field of the embed has a name and a
    value that are not empty, whatever was recorded. *)
Theorem embed_fields_not_empty :
  forall result now isoNow begun projects envBaseUrl evs this,
  exists e,
    Discord.embeds
      (Discord.buildPayload result now isoNow
         (Discord.run evs (Discord.onBegin begun projects envBaseUrl this)))
    = [e]
    /\ Forall (fun f => Discord.name f <> [] /\ Discord.value f <> [])
         (Discord.fields e).
Proof.
  intros. eexists. split; [reflexivity |].
  cbn [Discord.fields]. apply Forall_app. split.
  - rewrite discord_run_state.
    destruct (run_effect evs
                (Discord.state
                   (Discord.onBegin begun projects envBaseUrl this)))
      as (_ & _ & _ & _ & _ & _ & _ & Hp & _).
    cbn zeta in Hp. rewrite Hp.
    repeat (apply Forall_cons; [cbn [Discord.name Discord.value]; split |]);
      try apply Forall_nil; try discriminate.
    + cbn [Discord.onBegin Discord.withState Discord.state Reporter.onBegin
           projectName].
      destruct (option_map p_name _) as [[| c s] |]; discriminate.
    + destruct (baseUrl _); discriminate.
    + apply formatDuration_visible.
  - apply Forall_and.
    + unfold Discord.failedTestsField.
      destruct (Discord.includeFailedTests _ && _); repeat constructor.
      discriminate.
    + eapply Forall_impl; [| apply failed_tests_field_bounds].
      intros f [Hv _]. exact Hv.
Qed.

End MessageShape.

(* ================================================================= *)
(** * Configuration and the outcomes of the delivery *)

Section Configuration.

Lemma or_undef_given (o : option jsstring) (d : jsstring) :
  given o -> or_undef o d = match o with Some s => s | None => d end.
Proof. intros (s & -> & Hs). destruct s; [contradiction | reflexivity]. Qed.

Lemma or_undef_not_given (o : option jsstring) (d : jsstring) :
  ~ given o -> or_undef o d = d.
Proof.
  intros H. destruct o as [[| c s] |]; try reflexivity.
  exfalso. apply H. exists (c :: s). split; [reflexivity | discriminate].
Qed.

Lemma given_dec (o : option jsstring) : given o \/ ~ given o.
Proof.
  destruct o as [[| c s] |].
  - right. intros (s & H & Hs). injection H as <-. contradiction.
  - left. exists (c :: s). split; [reflexivity | discriminate].
  - right. intros (s & H & _). discriminate H.
Qed.

Lemma or_undef_nonempty (o : option jsstring) (d : jsstring) :
  or_undef o d <> [] <-> given o \/ d <> [].
Proof.
  destruct (given_dec o) as [Ho | Ho].
  - rewrite (or_undef_given d Ho). destruct Ho as (s & -> & Hs).
    split; [intros _; left; exists s; auto | intros _; exact Hs].
  - rewrite (or_undef_not_given d Ho).
    split; [intros H; right; exact H |].
    intros [H | H]; [contradiction | exact H].
Qed.

Lemma visible_true (s : jsstring) : visible s = true <-> s <> [].
Proof.
  destruct s; cbn; split; intros H; try reflexivity; try discriminate;
    contradiction.
Qed.

(** X11. A Discord reporter is configured exactly when a webhook URL that
    is not empty comes from the options or from the environment, and the
    one of the options is taken first. A Telegram reporter is configured
    exactly when the environment gives a token and a chat id that are not
    empty: the credentials of its options are not used. *)
Theorem credentials :
  (forall options env,
      (Discord.isConfigured (Discord.constructor options env) = true
       <-> given (Discord.o_webhookUrl options) \/ given env)
      /\ (forall url,
             Discord.o_webhookUrl options = Some url -> url <> [] ->
             Discord.webhookUrl (Discord.constructor options env) = url))
  /\ (forall options envToken envChat,
         (Telegram.isConfigured
            (Telegram.constructor options envToken envChat) = true
          <-> given envToken /\ given envChat)
         /\ Telegram.constructor options envToken envChat
            = Telegram.constructor
                {| Telegram.o_botToken := None; Telegram.o_chatId := None;
                   Telegram.o_enabled := Telegram.o_enabled options;
                   Telegram.o_includeFailedTests :=
                     Telegram.o_includeFailedTests options;
                   Telegram.o_maxFailedTestsToShow :=
                     Telegram.o_maxFailedTestsToShow options |}
                envToken envChat).
Proof.
  split.
  - intros options env. split.
    + change (Discord.isConfigured (Discord.constructor options env))
        with (visible (or_undef (Discord.o_webhookUrl options)
                         (or_undef env []))).
      rewrite visible_true, or_undef_nonempty, or_undef_nonempty.
      split; intros [H | H]; auto.
      destruct H as [H | H]; [auto | contradiction].
    + intros url Hurl Hne. unfold Discord.constructor.
      cbn [Discord.webhookUrl]. rewrite Hurl.
      destruct url; [contradiction | reflexivity].
  - intros options envToken envChat. split; [| reflexivity].
    assert (Hc : forall this,
               Telegram.isConfigured this
               = visible (Telegram.botToken this)
                 && visible (Telegram.chatId this)).
    { intros this. unfold Telegram.isConfigured.
      destruct (Telegram.botToken this); destruct (Telegram.chatId this);
        reflexivity. }
    rewrite Hc. cbn [Telegram.constructor Telegram.botToken Telegram.chatId].
    rewrite andb_true_iff, !visible_true, !or_undef_nonempty.
    split.
    + intros [[H | H] [H' | H']]; try contradiction. split; assumption.
    + intros [H H']. split; left; assumption.
Qed.

Lemma credentials_witness :
  let options :=
    {| Discord.o_webhookUrl := Some (lit "https://discord.example/hook/a");
       Discord.o_enabled := Some true;
       Discord.o_includeFailedTests := None;
       Discord.o_maxFailedTestsToShow := None |} in
  Discord.webhookUrl
    (Discord.constructor options (Some (lit "https://discord.example/hook/b")))
  = lit "https://discord.example/hook/a".
Proof.
  intros options.
  apply (proj2 (proj1 credentials options
                  (Some (lit "https://discord.example/hook/b")))).
  - reflexivity.
  - discriminate.
Defined.

Lemma discord_begun_config (begun : Z) (projects : list Project)
  (envBaseUrl : option jsstring) (evs : list (TestCase * TestResult))
  (this : Discord.DiscordReporter) :
  let after :=
    Discord.run evs (Discord.onBegin begun projects envBaseUrl this) in
  Discord.enabled after = Discord.enabled this
  /\ Discord.webhookUrl after = Discord.webhookUrl this
  /\ Discord.includeFailedTests after = Discord.includeFailedTests this
  /\ Discord.maxFailedTestsToShow after = Discord.maxFailedTestsToShow this.
Proof. cbn zeta. rewrite discord_run_withState. repeat split. Qed.

Lemma telegram_begun_config (begun : Z) (projects : list Project)
  (envBaseUrl : option jsstring) (evs : list (TestCase * TestResult))
  (this : Telegram.TelegramReporter) :
  let after :=
    Telegram.run evs (Telegram.onBegin begun projects envBaseUrl this) in
  Telegram.enabled after = Telegram.enabled this
  /\ Telegram.botToken after = Telegram.botToken this
  /\ Telegram.chatId after = Telegram.chatId this
  /\ Telegram.includeFailedTests after = Telegram.includeFailedTests this
  /\ Telegram.maxFailedTestsToShow after
     = Telegram.maxFailedTestsToShow this.
Proof. cbn zeta. rewrite telegram_run_withState. repeat split. Qed.

(** X12. The reporters are off unless the options say [enabled: true]:
    whatever the environment holds and whatever was recorded, the end of
    the run then makes no call and logs nothing. *)
Theorem off_by_default :
  (forall options env begun projects envBaseUrl evs result now isoNow net,
      Discord.o_enabled options <> Some true ->
      Discord.onEnd result now isoNow net
        (Discord.run evs
           (Discord.onBegin begun projects envBaseUrl
              (Discord.constructor options env)))
      = ([], Eff.Normal tt))
  /\ (forall options envToken envChat begun projects envBaseUrl evs result
             now timestamp net,
         Telegram.o_enabled options <> Some true ->
         Telegram.onEnd result now timestamp net
           (Telegram.run evs
              (Telegram.onBegin begun projects envBaseUrl
                 (Telegram.constructor options envToken envChat)))
         = ([], Eff.Normal tt)).
Proof.
  split.
  - intros options env begun projects envBaseUrl evs result now isoNow net H.
    unfold Discord.onEnd.
    destruct (discord_begun_config begun projects envBaseUrl evs
                (Discord.constructor options env)) as (He & _).
    rewrite He. cbn [Discord.constructor Discord.enabled].
    destruct (Discord.o_enabled options) as [[|] |];
      [contradiction H; reflexivity | reflexivity | reflexivity].
  - intros options envToken envChat begun projects envBaseUrl evs result now
      timestamp net H.
    unfold Telegram.onEnd.
    destruct (telegram_begun_config begun projects envBaseUrl evs
                (Telegram.constructor options envToken envChat))
      as (He & _).
    rewrite He. cbn [Telegram.constructor Telegram.enabled].
    destruct (Telegram.o_enabled options) as [[|] |];
      [contradiction H; reflexivity | reflexivity | reflexivity].
Qed.

Lemma off_by_default_witness :
  Discord.onEnd RunFailed 165000 (lit "2026-01-02T15:04:05.000Z")
    (Eff.Throw (lit "TypeError: fetch failed"))
    (Discord.run sevenFailures
       (Discord.onBegin 0 [] None
          (Discord.constructor
             {| Discord.o_webhookUrl := None; Discord.o_enabled := None;
                Discord.o_includeFailedTests := None;
                Discord.o_maxFailedTestsToShow := None |}
             (Some (lit "https://discord.example/hook/b")))))
  = ([], Eff.Normal tt).
Proof.
  apply (proj1 off_by_default). discriminate.
Defined.

(** X13. What an enabled and configured reporter logs after its call. On a
    2xx response the Discord reporter logs the success and waits 200 ms,
    the Telegram reporter logs the success. On another response whose body
    can be read, the Discord reporter logs the status and the body as an
    error and waits 200 ms, the Telegram reporter logs the body as an
    error. *)
Theorem delivery_outcomes :
  (forall result now isoNow r this,
      Discord.enabled this = true -> Discord.isConfigured this = true ->
      let request :=
        Eff.Fetch (Discord.webhookUrl this,
                   Discord.buildPayload result now isoNow this) in
      (Eff.ok r = true ->
       fst (Discord.onEnd result now isoNow (Eff.Normal r) this)
       = [request; Eff.ConsoleLog discordSent; Eff.SetTimeout 200])
      /\ (forall body,
             Eff.ok r = false -> Eff.r_text r = Eff.Normal body ->
             fst (Discord.onEnd result now isoNow (Eff.Normal r) this)
             = [request;
                Eff.ConsoleError
                  (lit "[Discord Reporter] Failed to send message - Status: "
                     ++ showNat (Eff.r_status r) ++ lit ", Error: " ++ body);
                Eff.SetTimeout 200]))
  /\ (forall result now timestamp r this,
         Telegram.enabled this = true -> Telegram.isConfigured this = true ->
         let request :=
           Eff.Fetch
             (telegramUrl this,
              {| Telegram.chat_id := Telegram.chatId this;
                 Telegram.text :=
                   Telegram.buildMessage result now timestamp this;
                 Telegram.parse_mode := lit "HTML";
                 Telegram.disable_web_page_preview := true |}) in
         (Eff.ok r = true ->
          fst (Telegram.onEnd result now timestamp (Eff.Normal r) this)
          = [request; Eff.ConsoleLog telegramSent])
         /\ (forall body,
                Eff.ok r = false -> Eff.r_json r = Eff.Normal body ->
                fst (Telegram.onEnd result now timestamp (Eff.Normal r) this)
                = [request;
                   Eff.ConsoleError
                     (lit "[Telegram Reporter] Failed to send message - "
                        ++ body)])).
Proof.
  split.
  - intros result now isoNow r this He Hc request. subst request.
    unfold Discord.onEnd, Discord.sendDiscordMessage.
    rewrite He, Hc. cbn [negb].
    unfold Eff.fetch, Eff.bind, Eff.tryCatch. split.
    + intros Hok. rewrite Hok. reflexivity.
    + intros body Hok Hbody. rewrite Hok. cbn [negb fst snd].
      unfold Eff.await. rewrite Hbody. reflexivity.
  - intros result now timestamp r this He Hc request. subst request.
    unfold Telegram.onEnd, Telegram.sendTelegramMessage, telegramUrl.
    rewrite He, Hc. cbn [negb].
    unfold Eff.fetch, Eff.bind, Eff.tryCatch. split.
    + intros Hok. rewrite Hok. reflexivity.
    + intros body Hok Hbody. rewrite Hok. cbn [negb fst snd].
      unfold Eff.await. rewrite Hbody. reflexivity.
Qed.

Lemma delivery_outcomes_witness :
  let timestamp := lit "2026-01-02T15:04:05.000Z" in
  let r := {| Eff.r_status := 404;
              Eff.r_text := Eff.Normal (lit "Unknown Webhook");
              Eff.r_json := Eff.Throw (lit "SyntaxError") |} in
  fst (Discord.onEnd RunFailed 165000 timestamp (Eff.Normal r) discordSeven)
  = [ Eff.Fetch (Discord.webhookUrl discordSeven,
                 Discord.buildPayload RunFailed 165000 timestamp discordSeven);
      Eff.ConsoleError
        (lit "[Discord Reporter] Failed to send message - Status: 404, Error: Unknown Webhook");
      Eff.SetTimeout 200 ].
Proof.
  intros timestamp r.
  exact (proj2 (proj1 delivery_outcomes RunFailed 165000%Z timestamp r
                  discordSeven eq_refl eq_refl)
           (lit "Unknown Webhook") eq_refl eq_refl).
Defined.

End Configuration.

(* ================================================================= *)
(** * The start of the run *)

Section Begin.

Lemma find_first {A} (f : A -> bool) (before : list A) (p : A)
  (rest : list A) :
  Forall (fun q => f q = false) before -> f p = true ->
  find f (before ++ p :: rest) = Some p.
Proof.
  induction 1 as [| q before Hq _ IH]; intros Hp; cbn [app find].
  - rewrite Hp. reflexivity.
  - rewrite Hq. apply IH. exact Hp.
Qed.

Lemma find_none_all {A} (f : A -> bool) (l : list A) :
  Forall (fun q => f q = false) l -> find f l = None.
Proof.
  induction 1 as [| q l Hq _ IH]; cbn [find]; [reflexivity |].
  rewrite Hq. exact IH.
Qed.

(** X14. [onBegin] takes the reading of the clock and leaves the
    statistics and the failures as they are. The project name it keeps is
    never empty: it is the name of the first project of the configuration
    that has a test directory (whichever project runs) when this name is
    not empty, and "Playwright Tests" when this name is empty or no project
    has a test directory. The base URL is the one of the first project when
    it has one, and else the one of the environment. *)
Theorem onBegin_context (begun : Z) (projects : list Project)
  (envBaseUrl : option jsstring) (this : State) :
  let after := Reporter.onBegin begun projects envBaseUrl this in
  stats after = stats this
  /\ failedTests after = failedTests this
  /\ startTime after = begun
  /\ projectName after <> []
  /\ (forall before p rest,
         projects = before ++ p :: rest ->
         Forall (fun q => testDir q = []) before ->
         testDir p <> [] ->
         projectName after = or_str (p_name p) (lit "Playwright Tests"))
  /\ (Forall (fun q => testDir q = []) projects ->
      projectName after = lit "Playwright Tests")
  /\ (forall p rest url,
         projects = p :: rest -> use_baseURL p = Some url -> url <> [] ->
         baseUrl after = url)
  /\ (forall p rest,
         projects = p :: rest -> ~ given (use_baseURL p) ->
         baseUrl after = or_undef envBaseUrl [])
  /\ (projects = [] -> baseUrl after = or_undef envBaseUrl []).
Proof.
  cbn zeta. unfold Reporter.onBegin. cbn [stats failedTests startTime
    projectName baseUrl].
  repeat apply conj; try reflexivity.
  - destruct (option_map p_name _) as [[| c s] |]; discriminate.
  - intros before p rest -> Hbefore Hdir.
    rewrite (@find_first _ _ before p rest).
    + reflexivity.
    + eapply Forall_impl; [| exact Hbefore]. cbn. intros q ->. reflexivity.
    + destruct (testDir p); [contradiction | reflexivity].
  - intros Hall. rewrite find_none_all; [reflexivity |].
    eapply Forall_impl; [| exact Hall]. cbn. intros q ->. reflexivity.
  - intros p rest url -> Hurl Hne. rewrite Hurl.
    destruct url; [contradiction | reflexivity].
  - intros p rest -> Hno. apply or_undef_not_given. exact Hno.
  - intros ->. reflexivity.
Qed.

Lemma onBegin_context_witness :
  let setup := {| p_name := lit "conduit-setup"; testDir := [];
                  use_baseURL := None |} in
  let examples := {| p_name := lit "examples";
                     testDir := lit "./tests-examples";
                     use_baseURL := None |} in
  let conduit := {| p_name := lit "conduit"; testDir := [];
                    use_baseURL := None |} in
  projectName
    (Reporter.onBegin 1000 [setup; examples; conduit] None Reporter.init)
  = lit "examples".
Proof.
  intros setup examples conduit.
  apply (proj1 (proj2 (proj2 (proj2 (proj2
           (onBegin_context 1000 [setup; examples; conduit] None
              Reporter.init)))))
           [setup] examples [conduit]).
  - reflexivity.
  - repeat constructor.
  - discriminate.
Defined.

End Begin.

(* ================================================================= *)
(** * The notification service and the task notifications *)

Section TaskNotifications.

Lemma service_isConfigured (url : jsstring)
  (this : Notifications.DiscordNotificationService) :
  Notifications.isConfigured (Some url) this
  = visible (or_str url (Notifications.defaultWebhookUrl this)).
Proof. reflexivity. Qed.

(** X16. [sendNotification] never throws and makes at most one call. With
    no URL, neither in the options nor in the service, it warns, makes no
    call and returns [false]. With a URL it posts the payload there once
    and returns [true] exactly when the response is 2xx, logging the
    success; an exception and any other response are logged as an error
    and give [false]. *)
Theorem sendNotification_result :
  forall options isoNow net this,
    let url := or_undef (Notifications.webhookUrl options)
                 (Notifications.defaultWebhookUrl this) in
    let request :=
      Notifications.Fetch url (Notifications.buildPayload options isoNow) in
    let done := Notifications.sendNotification options isoNow net this in
    (url = [] -> done = ([notificationSkipped], Eff.Normal false))
    /\ (url <> [] -> delivered net = true ->
        done = ([request;
                 Notifications.ConsoleLog
                   (lit "[Discord Notification] Sent successfully")],
                Eff.Normal true))
    /\ (url <> [] -> delivered net = false ->
        exists msg,
          done = ([request; Notifications.ConsoleError msg],
                  Eff.Normal false)).
Proof.
  intros options isoNow net this url request done.
  subst done request. unfold Notifications.sendNotification.
  fold url. rewrite service_isConfigured.
  repeat apply conj.
  - intros Hurl. rewrite Hurl. cbn [or_str].
    destruct (Notifications.defaultWebhookUrl this) eqn:E.
    + reflexivity.
    + exfalso. subst url.
      destruct (Notifications.webhookUrl options) as [[| c s] |];
        cbn in Hurl; congruence.
  - intros Hurl Hd. destruct url as [| c s] eqn:E; [contradiction |].
    cbn [or_str visible negb].
    destruct net as [r | e]; [| discriminate Hd]. cbn [delivered] in Hd.
    unfold Notifications.sendDiscordMessage, Notifications.fetch,
      Notifications.bind, Notifications.tryCatch.
    rewrite Hd. reflexivity.
  - intros Hurl Hd. destruct url as [| c s] eqn:E; [contradiction |].
    cbn [or_str visible negb].
    unfold Notifications.sendDiscordMessage, Notifications.fetch,
      Notifications.bind, Notifications.tryCatch.
    destruct net as [r | e].
    + cbn [delivered] in Hd. rewrite Hd. cbn [negb fst snd].
      destruct (Eff.r_text r); eexists; reflexivity.
    + eexists. reflexivity.
Qed.

Lemma sendNotification_result_witness :
  let options :=
    {| Notifications.title := lit "Build";
       Notifications.description := None;
       Notifications.fields := None;
       Notifications.color := None;
       Notifications.footer := None;
       Notifications.timestamp := None;
       Notifications.webhookUrl := None |} in
  Notifications.sendNotification options (lit "2026-01-02T15:04:05.000Z")
    (Eff.Throw (lit "TypeError: fetch failed"))
    (Notifications.newService None None)
  = ([notificationSkipped], Eff.Normal false).
Proof.
  intros options.
  apply (proj1 (sendNotification_result options
                  (lit "2026-01-02T15:04:05.000Z")
                  (Eff.Throw (lit "TypeError: fetch failed"))
                  (Notifications.newService None None))).
  reflexivity.
Defined.

(** X17. The URL a task notification is posted to: the one of the call
    when it is given, else the one of the helper, which for a helper made
    without a service is the task URL of the environment when it is given
    and else the general one. *)
Theorem task_webhook_precedence :
  (forall envTask env,
      Notifications.defaultWebhookUrl
        (Notifications.notificationService
           (Notifications.newHelper None envTask env))
      = or_undef envTask (or_undef env []))
  /\ (forall options isoNow net this url,
         Notifications.t_webhookUrl options = Some url -> url <> [] ->
         exists rest,
           fst (Notifications.notifyTaskCompletion options isoNow net this)
           = Notifications.Fetch url
               (Notifications.buildPayload
                  (Notifications.notificationOptions options) isoNow)
               :: rest)
  /\ (forall options isoNow net this,
         ~ given (Notifications.t_webhookUrl options) ->
         Notifications.defaultWebhookUrl
           (Notifications.notificationService this) <> [] ->
         exists rest,
           fst (Notifications.notifyTaskCompletion options isoNow net this)
           = Notifications.Fetch
               (Notifications.defaultWebhookUrl
                  (Notifications.notificationService this))
               (Notifications.buildPayload
                  (Notifications.notificationOptions options) isoNow)
               :: rest).
Proof.
  repeat apply conj.
  - intros envTask env. cbn.
    destruct (or_undef envTask (or_undef env [])) eqn:E; [| reflexivity].
    destruct envTask as [[| c s] |]; cbn in E; try discriminate E;
      rewrite E; reflexivity.
  - intros options isoNow net this url Hurl Hne.
    unfold Notifications.notifyTaskCompletion.
    pose proof (sendNotification_result
                  (Notifications.notificationOptions options) isoNow net
                  (Notifications.notificationService this)) as H.
    cbn zeta in H. cbn [Notifications.notificationOptions
                        Notifications.webhookUrl] in H.
    rewrite Hurl in H.
    assert (Hu : or_undef (Some url)
                   (Notifications.defaultWebhookUrl
                      (Notifications.notificationService this)) = url)
      by (destruct url; [contradiction | reflexivity]).
    rewrite Hu in H. destruct H as (_ & Hok & Hko).
    destruct (delivered net) eqn:Hd.
    + rewrite (Hok Hne eq_refl). eexists. reflexivity.
    + destruct (Hko Hne eq_refl) as (msg & ->). eexists. reflexivity.
  - intros options isoNow net this Hno Hne.
    unfold Notifications.notifyTaskCompletion.
    pose proof (sendNotification_result
                  (Notifications.notificationOptions options) isoNow net
                  (Notifications.notificationService this)) as H.
    cbn zeta in H. cbn [Notifications.notificationOptions
                        Notifications.webhookUrl] in H.
    rewrite (or_undef_not_given _ Hno) in H. destruct H as (_ & Hok & Hko).
    destruct (delivered net) eqn:Hd.
    + rewrite (Hok Hne eq_refl). eexists. reflexivity.
    + destruct (Hko Hne eq_refl) as (msg & ->). eexists. reflexivity.
Qed.

Lemma task_webhook_precedence_witness :
  let options :=
    {| Notifications.taskName := lit "Create Tests";
       Notifications.status := Notifications.Completed;
       Notifications.duration := Some (ofZ 300000);
       Notifications.details := None;
       Notifications.filesCreated := None;
       Notifications.errors := None;
       Notifications.t_webhookUrl :=
         Some (lit "https://discord.example/hook/call") |} in
  exists rest,
    fst (Notifications.notifyTaskCompletion options
           (lit "2026-01-02T15:04:05.000Z")
           (Eff.Throw (lit "TypeError: fetch failed"))
           (Notifications.newHelper None
              (Some (lit "https://discord.example/hook/task")) None))
    = Notifications.Fetch (lit "https://discord.example/hook/call")
        (Notifications.buildPayload
           (Notifications.notificationOptions options)
           (lit "2026-01-02T15:04:05.000Z"))
        :: rest.
Proof.
  intros options.
  apply (proj1 (proj2 task_webhook_precedence)).
  - reflexivity.
  - discriminate.
Defined.

End TaskNotifications.

Section TaskFields.

Lemma join_cons_visible (sep x : jsstring) (rest : list jsstring)
  (more : jsstring) :
  x <> [] -> join sep (x :: rest) ++ more <> [].
Proof.
  intros Hx H. apply app_eq_nil in H. destruct H as [H _].
  destruct rest; cbn [join] in H; [contradiction |].
  apply app_eq_nil in H. destruct H as [H _]. contradiction.
Qed.

Lemma task_formatDuration_visible (ms : number) :
  Notifications.formatDuration ms <> [].
Proof.
  unfold Notifications.formatDuration.
  destruct (Notifications.positive _); [| destruct (Notifications.positive _)];
    intros H; repeat (apply app_eq_nil in H; destruct H as [_ H]);
    discriminate H.
Qed.

(** X18. A task notification has at most four fields, and none of them
    has an empty name or an empty value: a duration that is missing, 0 or
    not a number, missing or empty details and missing or empty lists give
    no field. *)
Theorem task_fields_not_empty (options : Notifications.TaskNotificationOptions) :
  length (Notifications.taskFields options) <= 4
  /\ Forall (fun f => Notifications.name f <> []
                      /\ Notifications.value f <> [])
       (Notifications.taskFields options)
  /\ (noDuration (Notifications.duration options) ->
      nothing (Notifications.details options) ->
      nothing (Notifications.filesCreated options) ->
      nothing (Notifications.errors options) ->
      Notifications.taskFields options = []).
Proof.
  unfold Notifications.taskFields. split; [| split].
  - rewrite !length_app.
    destruct (Notifications.duration options) as [d |];
      [destruct (Notifications.truthy d);
       [destruct (Notifications.formatDuration d) |] |];
      destruct (Notifications.details options) as [[| ? ?] |];
      destruct (Notifications.filesCreated options) as [[| ? ?] |];
      destruct (Notifications.errors options) as [[| ? ?] |];
      cbn [length]; lia.
  - repeat (apply Forall_app; split).
    + destruct (Notifications.duration options) as [d |]; [| constructor].
      destruct (Notifications.truthy d); [| constructor].
      destruct (Notifications.formatDuration d); repeat constructor;
        discriminate.
    + destruct (Notifications.details options) as [[| ? ?] |];
        repeat constructor; discriminate.
    + destruct (Notifications.filesCreated options) as [[| f fs] |];
        repeat constructor; try discriminate.
      unfold Notifications.filesField. cbn [Notifications.value firstn map].
      apply join_cons_visible. discriminate.
    + destruct (Notifications.errors options) as [[| e es] |];
        repeat constructor; try discriminate.
      unfold Notifications.errorsField.
      cbn [Notifications.value firstn Notifications.mapi].
      apply join_cons_visible. discriminate.
  - unfold noDuration, nothing. intros Hd Hx Hf He.
    destruct (Notifications.duration options) as [d |];
      [rewrite Hd |];
      destruct (Notifications.details options) as [[| ? ?] |];
      destruct (Notifications.filesCreated options) as [[| ? ?] |];
      destruct (Notifications.errors options) as [[| ? ?] |];
      try discriminate; reflexivity.
Qed.

Lemma task_fields_not_empty_witness :
  Notifications.taskFields
    {| Notifications.taskName := lit "Create Tests";
       Notifications.status := Notifications.Completed;
       Notifications.duration := Some (ofZ 0);
       Notifications.details := None;
       Notifications.filesCreated := Some [];
       Notifications.errors := Some [];
       Notifications.t_webhookUrl := None |}
  = [].
Proof.
  apply (proj2 (proj2 (task_fields_not_empty _))); reflexivity.
Defined.

End TaskFields.
